(** * Request-interception tools of playwright-mcp (src/tools/extended.ts)

  A shallow embedding of the three tools [mockApi], [clearMockApi] and
  [setHeaders]: their zod input schemas, their handlers run against a model
  of the browser page, and the code transcript each handler returns. *)

From stdpp Require Import gmap strings.
From Stdlib Require Import String Ascii List ZArith Lia Bool.
From Stdlib Require Import Decimal DecimalString.
Import ListNotations.
Open Scope string_scope.
Local Set Warnings "-register-all".

(* ================================================================= *)
(** ** JavaScript values and the primitives the source relies on *)

Module Js.

(** A JavaScript value as a tool argument can carry it (the arguments arrive
    as JSON).  Numbers are the integer-valued ones; an object is the list of
    its own properties, in enumeration order, keys pairwise distinct. *)
Inductive Value : Type :=
| VUndefined
| VNull
| VBool (b : bool)
| VNum (n : Z)
| VStr (s : string)
| VArr (items : list Value)
| VObj (props : list (string * Value)).

(** A record of strings: [{ [key: string]: string }]. *)
Definition StringRecord : Type := list (string * string).

(** Property read [o[k]]: [undefined] when [o] has no property [k]. *)
Fixpoint get (props : list (string * Value)) (k : string) : Value :=
  match props with
  | [] => VUndefined
  | (k', v) :: rest => if String.eqb k' k then v else get rest k
  end.

(** [ToBoolean] on a string: only the empty string is falsy. *)
Definition truthy (s : string) : bool :=
  match s with
  | EmptyString => false
  | String _ _ => true
  end.

(** [x === y] where [x] is a string and [y] is a string or [undefined]
    ([None]): values of different types are never strictly equal. *)
Definition strict_eq (x : string) (y : option string) : bool :=
  match y with
  | Some s => String.eqb x s
  | None => false
  end.

(** [Number.prototype.toString] on an integer-valued number: its decimal
    digits, with a minus sign when negative.  (JavaScript switches to
    exponent notation from 10^21 on, far above any status the schema lets
    through.) *)
Definition Number_toString (n : Z) : string :=
  NilZero.string_of_int (Z.to_int n).

(** Template-literal interpolation of a value that is a string or
    [undefined]: [undefined] is rendered as the nine letters of its name. *)
Definition interpolate (y : option string) : string :=
  match y with
  | Some s => s
  | None => "undefined"
  end.

Definition chr (n : nat) : string := String (ascii_of_nat n) EmptyString.

Definition hex_digit (n : nat) : string :=
  match n with
  | 0 => "0" | 1 => "1" | 2 => "2" | 3 => "3" | 4 => "4" | 5 => "5"
  | 6 => "6" | 7 => "7" | 8 => "8" | 9 => "9" | 10 => "a" | 11 => "b"
  | 12 => "c" | 13 => "d" | 14 => "e" | _ => "f"
  end.

(** One code unit of [QuoteJSONString]. *)
Definition quote_char (c : ascii) : string :=
  let n := nat_of_ascii c in
  if Nat.eqb n 34 then chr 92 ++ chr 34
  else if Nat.eqb n 92 then chr 92 ++ chr 92
  else if Nat.eqb n 8 then chr 92 ++ "b"
  else if Nat.eqb n 12 then chr 92 ++ "f"
  else if Nat.eqb n 10 then chr 92 ++ "n"
  else if Nat.eqb n 13 then chr 92 ++ "r"
  else if Nat.eqb n 9 then chr 92 ++ "t"
  else if Nat.ltb n 32
       then chr 92 ++ "u00" ++ hex_digit (n / 16) ++ hex_digit (n mod 16)
  else String c EmptyString.

Fixpoint quote_chars (s : string) : string :=
  match s with
  | EmptyString => EmptyString
  | String c rest => quote_char c ++ quote_chars rest
  end.

Definition QuoteJSONString (s : string) : string :=
  chr 34 ++ quote_chars s ++ chr 34.

Fixpoint join (sep : string) (parts : list string) : string :=
  match parts with
  | [] => EmptyString
  | [p] => p
  | p :: rest => p ++ sep ++ join sep rest
  end.

(** [JSON.stringify] on a record of strings (no indentation argument). *)
Definition JSON_stringify (o : StringRecord) : string :=
  "{" ++ join ","
           (map (fun kv => QuoteJSONString (fst kv) ++ ":" ++
                           QuoteJSONString (snd kv)) o)
      ++ "}".

(** [o || {}] where [o] is an object or [undefined]: every object is
    truthy, the empty one included. *)
Definition or_empty (o : option StringRecord) : StringRecord :=
  match o with
  | Some r => r
  | None => []
  end.

End Js.

(* ================================================================= *)
(** ** The part of zod the three input schemas are written with *)

Module Zod.
Import Js.

Inductive IssueCode : Type :=
| invalid_type
| invalid_enum_value
| too_small
| too_big.

(** An issue names the place of the offending value by its [path]. *)
Record Issue : Type := mkIssue { code : IssueCode; path : list string }.

Inductive ParseResult (A : Type) : Type :=
| Ok (a : A)
| Invalid (issues : list Issue).
Arguments Ok {A} a.
Arguments Invalid {A} issues.

(** A schema parses the value found at a path. *)
Definition Schema (A : Type) : Type := list string -> Value -> ParseResult A.

(** Results of sibling fields are merged; the issues of all of them are
    kept, in field order. *)
Definition ap {A B} (f : ParseResult (A -> B)) (x : ParseResult A)
  : ParseResult B :=
  match f, x with
  | Ok g, Ok a => Ok (g a)
  | Ok _, Invalid is_ => Invalid is_
  | Invalid is_, Ok _ => Invalid is_
  | Invalid is1, Invalid is2 => Invalid (is1 ++ is2)%list
  end.

(** [z.string()] *)
Definition string_ : Schema string := fun p v =>
  match v with
  | VStr s => Ok s
  | _ => Invalid [mkIssue invalid_type p]
  end.

(** [z.enum([...])] *)
Definition enum (options : list string) : Schema string := fun p v =>
  match v with
  | VStr s => if existsb (String.eqb s) options then Ok s
              else Invalid [mkIssue invalid_enum_value p]
  | _ => Invalid [mkIssue invalid_type p]
  end.

(** [z.number().min(lo).max(hi)]: both bounds are inclusive and both checks
    run. *)
Definition number_min_max (lo hi : Z) : Schema Z := fun p v =>
  match v with
  | VNum n =>
      match ((if Z.ltb n lo then [mkIssue too_small p] else []) ++
             (if Z.ltb hi n then [mkIssue too_big p] else []))%list with
      | [] => Ok n
      | is_ => Invalid is_
      end
  | _ => Invalid [mkIssue invalid_type p]
  end.

(** [.optional()] *)
Definition optional {A} (s : Schema A) : Schema (option A) := fun p v =>
  match v with
  | VUndefined => Ok None
  | _ => match s p v with
         | Ok a => Ok (Some a)
         | Invalid is_ => Invalid is_
         end
  end.

(** [.default(d)]: a missing value is replaced by [d] and then parsed. *)
Definition default {A} (s : Schema A) (d : Value) : Schema A := fun p v =>
  match v with
  | VUndefined => s p d
  | _ => s p v
  end.

(** The key under which zod never stores a parsed entry. *)
Definition proto_key : string := "__proto__".

(** The entries of [z.record(z.string())]: the value of every key is parsed
    at its key, and the parsed entries are gathered in order into a new
    object, except an entry whose key is [proto_key], which is parsed and
    then left out. *)
Fixpoint record_entries (p : list string) (props : list (string * Value))
  : ParseResult StringRecord :=
  match props with
  | [] => Ok []
  | (k, v) :: rest =>
      ap (ap (Ok (fun s r => if String.eqb k proto_key then r
                             else (k, s) :: r))
             (string_ (p ++ [k])%list v))
         (record_entries p rest)
  end.

(** [z.record(z.string())] *)
Definition record_string : Schema StringRecord := fun p v =>
  match v with
  | VObj props => record_entries p props
  | _ => Invalid [mkIssue invalid_type p]
  end.

(** A field of [z.object({...})]: the property is read (giving [undefined]
    when absent) and parsed under the path extended with its key. *)
Definition field {A} (props : list (string * Value)) (p : list string)
           (k : string) (s : Schema A) : ParseResult A :=
  s (p ++ [k])%list (get props k).

(** The issues name the field [fld]: one of them has the path of that
    field of the arguments. *)
Definition names (fld : string) (is_ : list Issue) : Prop :=
  exists c, In (mkIssue c [fld]) is_.

(** A parse fails and names the field [fld]. *)
Definition rejected {A} (r : ParseResult A) (fld : string) : Prop :=
  exists is_, r = Invalid is_ /\ names fld is_.

End Zod.

(* ================================================================= *)
(** ** The browser page the handlers act on *)

Module Playwright.
Import Js.

Record Request : Type := mkRequest { url : string; method : string }.

(** The object handed to a route handler. *)
Record Route : Type := mkRoute { request : Request }.

(** The options of [route.fulfill]. *)
Record FulfillOptions : Type := mkFulfill {
  status : Z;
  contentType : string;
  body : string;
  headers : option StringRecord
}.

(** What a handler does with the request it is given: answer it itself, or
    let it go on to the network as it is. *)
Inductive RouteAction : Type :=
| fulfill (options : FulfillOptions)
| continue.

Definition Handler : Type := Route -> RouteAction.

(** The calls a handler makes on the page, for the record of what was
    issued. *)
Inductive Call : Type :=
| call_route (pattern : string) (handler : Handler)
| call_unroute (pattern : string)
| call_setExtraHTTPHeaders (hs : StringRecord).

(** Modelled from the spec: the page of the browser driver, a collaborator
    of the tools.  Its routing table is a map from url pattern to the
    registered interceptor, with at most one registration per pattern; its
    extra headers are one set, applied to all outgoing requests.  [calls]
    records the driver calls issued so far, oldest first. *)
Record Page : Type := mkPage {
  routes : gmap string Handler;
  extraHTTPHeaders : StringRecord;
  calls : list Call
}.

Definition new_page : Page :=
  {| routes := ∅; extraHTTPHeaders := []; calls := [] |}.

(** Handlers are sequences of page calls: a state monad over the page. *)
Definition M (A : Type) : Type := Page -> A * Page.

Definition ret {A} (a : A) : M A := fun pg => (a, pg).

Definition bind {A B} (c : M A) (k : A -> M B) : M B :=
  fun pg => let (a, pg') := c pg in k a pg'.

Definition when (b : bool) (c : M unit) : M unit :=
  if b then c else ret tt.

(** Modelled from the spec: [page.route(pattern, handler)] registers the
    interceptor under its pattern; registering a pattern again replaces the
    earlier registration. *)
Definition route (pattern : string) (h : Handler) : M unit := fun pg =>
  (tt, {| routes := <[pattern := h]> (routes pg);
          extraHTTPHeaders := extraHTTPHeaders pg;
          calls := (calls pg ++ [call_route pattern h])%list |}).

(** Modelled from the spec: [page.unroute(pattern)] removes the registration
    for exactly that pattern; a pattern that has none is not an error. *)
Definition unroute (pattern : string) : M unit := fun pg =>
  (tt, {| routes := delete pattern (routes pg);
          extraHTTPHeaders := extraHTTPHeaders pg;
          calls := (calls pg ++ [call_unroute pattern])%list |}).

(** Modelled from the spec: [page.setExtraHTTPHeaders(hs)] replaces the
    page's extra headers wholesale. *)
Definition setExtraHTTPHeaders (hs : StringRecord) : M unit := fun pg =>
  (tt, {| routes := routes pg;
          extraHTTPHeaders := hs;
          calls := (calls pg ++ [call_setExtraHTTPHeaders hs])%list |}).

(** The action taken on a request that the page intercepts under [pattern]:
    that of the interceptor registered for the pattern, if there is one. *)
Definition intercepted (pg : Page) (pattern : string) (r : Route)
  : option RouteAction :=
  match routes pg !! pattern with
  | Some h => Some (h r)
  | None => None
  end.

Definition is_unroute (c : Call) : bool :=
  match c with
  | call_unroute _ => true
  | _ => false
  end.

End Playwright.

Notation "'let*' x ':=' c 'in' k" := (Playwright.bind c (fun x => k))
  (at level 10, x name, c at level 100, k at level 200).

(* ================================================================= *)
(** ** Tools *)

Module Tool.
Import Js Playwright.

(** What every handler returns. *)
Record Result : Type := mkResult {
  code : list string;
  captureSnapshot : bool;
  waitForNetwork : bool
}.

(** Modelled from the spec: the tool dispatcher ([defineTool] and the server
    code that runs a tool), which lives outside tools/extended.ts.  The
    arguments are validated against the tool's input schema first; on a
    validation failure the issues are reported and the handler is not run, so
    the page is not touched. *)
Definition callTool {P : Type} (inputSchema : Zod.Schema P)
           (handle : P -> M Result) (args : Value)
  : M (list Zod.Issue + Result) :=
  match inputSchema [] args with
  | Zod.Invalid issues => ret (inl issues)
  | Zod.Ok params => let* r := handle params in ret (inr r)
  end.

End Tool.

(** *** [mockApi]: the tool browser_mock_api *)

Module mockApi.
Import Js Playwright.

Record Params : Type := mkParams {
  url : string;
  method : option string;
  status : Z;
  contentType : string;
  body : string;
  headers : option StringRecord
}.

Definition verbs : list string :=
  ["GET"; "POST"; "PUT"; "DELETE"; "PATCH"; "HEAD"; "OPTIONS"].

(** [schema.inputSchema] *)
Definition inputSchema : Zod.Schema Params := fun p v =>
  match v with
  | VObj o =>
      Zod.ap (Zod.ap (Zod.ap (Zod.ap (Zod.ap (Zod.ap (Zod.Ok mkParams)
        (Zod.field o p "url" Zod.string_))
        (Zod.field o p "method" (Zod.optional (Zod.enum verbs))))
        (Zod.field o p "status"
           (Zod.default (Zod.number_min_max 100 599) (VNum 200))))
        (Zod.field o p "contentType"
           (Zod.default Zod.string_ (VStr "application/json"))))
        (Zod.field o p "body" Zod.string_))
        (Zod.field o p "headers" (Zod.optional Zod.record_string))
  | _ => Zod.Invalid [Zod.mkIssue Zod.invalid_type p]
  end.

(** The interceptor [handle] registers: the closure over [params] given to
    [page.route]. *)
Definition interceptor (params : Params) : Handler := fun route =>
  if strict_eq (Playwright.method (request route)) (method params)
  then fulfill {| Playwright.status := status params;
                  Playwright.contentType := contentType params;
                  Playwright.body := body params;
                  Playwright.headers := headers params |}
  else continue.

(** The lines of [code]. *)
Definition transcript (params : Params) : list string :=
  [ "// Mock API response for " ++ url params;
    "await page.route('" ++ url params ++ "', (route, request) => {";
    "  if (route.request().method() === '" ++ interpolate (method params)
      ++ "') {";
    "  route.fulfill({";
    "    status: " ++ Number_toString (status params) ++ ",";
    "    contentType: '" ++ contentType params ++ "',";
    "    body: '" ++ body params ++ "',";
    "    headers: {";
    "      ..." ++ JSON_stringify (or_empty (headers params)) ++ ",";
    "    },";
    "  });";
    "  } else {";
    "    route.continue();";
    "  }";
    "});" ].

(** [handle]: the page is the one [context.ensureTab()] gives, here the
    state of [M].  The source does not await [page.route]; the registration
    is taken as made when the call returns. *)
Definition handle (params : Params) : M Tool.Result :=
  let* _ := route (url params) (interceptor params) in
  ret {| Tool.code := transcript params;
         Tool.captureSnapshot := false;
         Tool.waitForNetwork := false |}.

(** The string literal the third transcript line compares the request's
    method with, and the comparison that line spells: both sides are strings
    there. *)
Definition transcript_literal (params : Params) : string :=
  interpolate (method params).

Definition transcript_matches (params : Params) (r : Route) : bool :=
  String.eqb (Playwright.method (request r)) (transcript_literal params).

End mockApi.

(** *** [clearMockApi]: the tool browser_clear_mock_api *)

Module clearMockApi.
Import Js Playwright.

Record Params : Type := mkParams { url : string }.

(** [schema.inputSchema] *)
Definition inputSchema : Zod.Schema Params := fun p v =>
  match v with
  | VObj o => Zod.ap (Zod.Ok mkParams) (Zod.field o p "url" Zod.string_)
  | _ => Zod.Invalid [Zod.mkIssue Zod.invalid_type p]
  end.

Definition transcript (params : Params) : list string :=
  [ "// Clear Mock API response for " ++ url params;
    "await page.unroute('" ++ url params ++ "');" ].

Definition handle (params : Params) : M Tool.Result :=
  let* _ := when (truthy (url params)) (unroute (url params)) in
  ret {| Tool.code := transcript params;
         Tool.captureSnapshot := false;
         Tool.waitForNetwork := false |}.

End clearMockApi.

(** *** [setHeaders]: the tool browser_set_headers *)

Module setHeaders.
Import Js Playwright.

Record Params : Type := mkParams { headers : StringRecord }.

(** [schema.inputSchema] *)
Definition inputSchema : Zod.Schema Params := fun p v =>
  match v with
  | VObj o =>
      Zod.ap (Zod.Ok mkParams) (Zod.field o p "headers" Zod.record_string)
  | _ => Zod.Invalid [Zod.mkIssue Zod.invalid_type p]
  end.

Definition transcript (params : Params) : list string :=
  [ "// Set Extra HTTP Headers";
    "await page.setExtraHTTPHeaders(" ++ JSON_stringify (headers params)
      ++ ");" ].

Definition handle (params : Params) : M Tool.Result :=
  let* _ := setExtraHTTPHeaders (headers params) in
  ret {| Tool.code := transcript params;
         Tool.captureSnapshot := false;
         Tool.waitForNetwork := false |}.

End setHeaders.

(* ================================================================= *)
(** ** Worked inputs *)

Module Examples.
Import Js Playwright.

Definition dq : string := chr 34.

(** The body of the users scenario: an object with the one member ok,
    true. *)
Definition ok_body : string := "{" ++ dq ++ "ok" ++ dq ++ ":true}".

Definition users_args : Value :=
  VObj [("url", VStr "/api/users"); ("method", VStr "GET");
        ("status", VNum 200); ("body", VStr ok_body)].

Definition users_params : mockApi.Params :=
  {| mockApi.url := "/api/users"; mockApi.method := Some "GET";
     mockApi.status := 200; mockApi.contentType := "application/json";
     mockApi.body := ok_body; mockApi.headers := None |}.

(** A rule registered with no method. *)
Definition x_params : mockApi.Params :=
  {| mockApi.url := "/api/x"; mockApi.method := None;
     mockApi.status := 200; mockApi.contentType := "application/json";
     mockApi.body := "{}"; mockApi.headers := None |}.

Definition x_args : Value :=
  VObj [("url", VStr "/api/x"); ("body", VStr "{}")].

(** A rule whose url pattern is the empty string. *)
Definition empty_url_args : Value :=
  VObj [("url", VStr EmptyString); ("body", VStr "{}")].

Definition empty_url_params : mockApi.Params :=
  {| mockApi.url := EmptyString; mockApi.method := None;
     mockApi.status := 200; mockApi.contentType := "application/json";
     mockApi.body := "{}"; mockApi.headers := None |}.

(** Arguments with a status above the range. *)
Definition status_600_args : list (string * Value) :=
  [("url", VStr "/api/x"); ("status", VNum 600); ("body", VStr "{}")].

Definition get_users : Route := mkRoute (mkRequest "/api/users" "GET").
Definition post_users : Route := mkRoute (mkRequest "/api/users" "POST").

End Examples.

(* ================================================================= *)
(** ** Notions the properties are stated with *)

Module Props.
Import Js Playwright.

(** The arguments carry a status that is a number outside 100..599. *)
Definition bad_status (o : list (string * Value)) : Prop :=
  exists n, get o "status" = VNum n /\ (n < 100 \/ 599 < n)%Z.

(** The arguments carry a method that is a string outside the verbs. *)
Definition bad_method (o : list (string * Value)) : Prop :=
  exists s, get o "method" = VStr s /\ ~ In s mockApi.verbs.

(** The page after a mock is registered with [params] and its url pattern is
    cleared right after. *)
Definition register_then_clear (params : mockApi.Params) (pg : Page) : Page :=
  snd (clearMockApi.handle
         {| clearMockApi.url := mockApi.url params |}
         (snd (mockApi.handle params pg))).

(** The page has an unroute call on record. *)
Definition unroute_issued (pg : Page) : bool := existsb is_unroute (calls pg).

End Props.

(* ================================================================= *)
(** ** The exported tools in use *)

Module Session.
Import Js Playwright.

(** One invocation of a tool of the exported list
    [[mockApi, clearMockApi, setHeaders]], named by its [schema.name]. *)
Inductive Invocation : Type :=
| browser_mock_api (args : Value)
| browser_clear_mock_api (args : Value)
| browser_set_headers (args : Value).

Definition invoke (i : Invocation) : M (list Zod.Issue + Tool.Result) :=
  match i with
  | browser_mock_api args =>
      Tool.callTool mockApi.inputSchema mockApi.handle args
  | browser_clear_mock_api args =>
      Tool.callTool clearMockApi.inputSchema clearMockApi.handle args
  | browser_set_headers args =>
      Tool.callTool setHeaders.inputSchema setHeaders.handle args
  end.

(** The page after a sequence of invocations, one after the other. *)
Fixpoint run (is_ : list Invocation) (pg : Page) : Page :=
  match is_ with
  | [] => pg
  | i :: rest => run rest (snd (invoke i pg))
  end.

Definition is_set_headers (i : Invocation) : bool :=
  match i with
  | browser_set_headers _ => true
  | _ => false
  end.

(** The kind of page call each tool makes. *)
Definition call_of_tool (i : Invocation) (c : Call) : bool :=
  match i, c with
  | browser_mock_api _, call_route _ _ => true
  | browser_clear_mock_api _, call_unroute _ => true
  | browser_set_headers _, call_setExtraHTTPHeaders _ => true
  | _, _ => false
  end.

(** A handler that fulfills only requests whose method is one of the verbs,
    and only with a status within 100..599. *)
Definition fulfills_within_schema (h : Handler) : Prop :=
  forall (r : Route) (o : FulfillOptions),
    h r = fulfill o ->
    (100 <= status o <= 599)%Z
    /\ In (Playwright.method (request r)) mockApi.verbs.

End Session.

(* ================================================================= *)
(** ** What the schemas accept, field by field *)

Module Fields.
Import Js.

(** The object whose properties are the entries of a record of strings. *)
Definition of_record (r : StringRecord) : Value :=
  VObj (map (fun kv => (fst kv, VStr (snd kv))) r).

Definition is_object (v : Value) : bool :=
  match v with
  | VObj _ => true
  | _ => false
  end.

Definition is_string (v : Value) : bool :=
  match v with
  | VStr _ => true
  | _ => false
  end.

(** The value [v] of the method property parses to [m]. *)
Definition method_field (v : Value) (m : option string) : Prop :=
  (v = VUndefined /\ m = None)
  \/ (exists s, v = VStr s /\ m = Some s /\ In s mockApi.verbs).

(** The value [v] of the status property parses to [n]. *)
Definition status_field (v : Value) (n : Z) : Prop :=
  (v = VUndefined /\ n = 200%Z)
  \/ (v = VNum n /\ (100 <= n <= 599)%Z).

(** The value [v] of the contentType property parses to [s]. *)
Definition contentType_field (v : Value) (s : string) : Prop :=
  (v = VUndefined /\ s = "application/json") \/ v = VStr s.

(** The entries a parsed record keeps: all but one under [Zod.proto_key]. *)
Definition kept (kv : string * string) : bool :=
  negb (String.eqb (fst kv) Zod.proto_key).

(** The value [v] is an object all of whose values are strings, and [r] are
    its entries in their order, an entry under [Zod.proto_key] left out. *)
Definition record_of (v : Value) (r : StringRecord) : Prop :=
  exists entries : StringRecord,
    v = of_record entries /\ r = List.filter kept entries.

(** The value [v] of the headers property of mock-api parses to [h]. *)
Definition headers_field (v : Value) (h : option StringRecord) : Prop :=
  (v = VUndefined /\ h = None)
  \/ (exists r, record_of v r /\ h = Some r).

(** The issues of a parse: none when it succeeds. *)
Definition issues_of {A} (r : Zod.ParseResult A) : list Zod.Issue :=
  match r with
  | Zod.Ok _ => []
  | Zod.Invalid is_ => is_
  end.

(** A parse result that blames only the place [p]: each of its issues has
    path [p], and it has an issue unless it succeeds. *)
Definition blames {A} (p : list string) (r : Zod.ParseResult A) : Prop :=
  (forall i, In i (issues_of r) -> Zod.path i = p)
  /\ (issues_of r = [] -> exists a, r = Zod.Ok a).

(** The six keys the schema of mock-api reads. *)
Definition mockApi_keys : list string :=
  ["url"; "method"; "status"; "contentType"; "body"; "headers"].

(** Every character of [s] satisfies [P]. *)
Fixpoint all_chars (P : ascii -> bool) (s : string) : bool :=
  match s with
  | EmptyString => true
  | String c rest => P c && all_chars P rest
  end.

(** Not a control character: code 32 or above. *)
Definition not_control (c : ascii) : bool := Nat.leb 32 (nat_of_ascii c).

End Fields.

(* ================================================================= *)
(** ** Reading a quoted string back *)

Module JsonRead.
Import Js.

(** The value of a lower-case hexadecimal digit. *)
Definition hex_value (c : ascii) : option nat :=
  let n := nat_of_ascii c in
  if Nat.leb 48 n && Nat.leb n 57 then Some (n - 48)
  else if Nat.leb 97 n && Nat.leb n 102 then Some (n - 87)
  else None.

Definition push (c : ascii) (r : option (string * string))
  : option (string * string) :=
  match r with
  | Some (s, t) => Some (String c s, t)
  | None => None
  end.

(** Reads the characters of a JSON string up to its closing quote, undoing
    the escapes of [quote_char]; gives the string read and what follows the
    closing quote. *)
Fixpoint read_chars (s : string) : option (string * string) :=
  match s with
  | EmptyString => None
  | String c rest =>
      let n := nat_of_ascii c in
      if Nat.eqb n 34 then Some (EmptyString, rest)
      else if Nat.eqb n 92 then
        match rest with
        | EmptyString => None
        | String e rest1 =>
            let m := nat_of_ascii e in
            if Nat.eqb m 34 then push e (read_chars rest1)
            else if Nat.eqb m 92 then push e (read_chars rest1)
            else if Nat.eqb m 98 then push (ascii_of_nat 8) (read_chars rest1)
            else if Nat.eqb m 102
                 then push (ascii_of_nat 12) (read_chars rest1)
            else if Nat.eqb m 110
                 then push (ascii_of_nat 10) (read_chars rest1)
            else if Nat.eqb m 114
                 then push (ascii_of_nat 13) (read_chars rest1)
            else if Nat.eqb m 116 then push (ascii_of_nat 9) (read_chars rest1)
            else if Nat.eqb m 117 then
              match rest1 with
              | String _ (String _ (String h1 (String h2 rest2))) =>
                  match hex_value h1, hex_value h2 with
                  | Some a, Some b =>
                      push (ascii_of_nat (16 * a + b)) (read_chars rest2)
                  | _, _ => None
                  end
              | _ => None
              end
            else None
        end
      else push c (read_chars rest)
  end.

(** What [JSON_stringify] puts between the opening brace and the end: the
    entries, comma separated, and the closing brace. *)
Definition entry (kv : string * string) : string :=
  QuoteJSONString (fst kv) ++ ":" ++ QuoteJSONString (snd kv).

(** The entries of an object, comma separated, with the closing brace and
    the text [t] that follows it. *)
Definition body (o : StringRecord) (t : string) : string :=
  join "," (map entry o) ++ String "}" t.

(** What follows an entry: the closing brace, or a comma and more entries. *)
Definition tail (o : StringRecord) (t : string) : string :=
  match o with
  | [] => String "}" t
  | _ :: _ => "," ++ body o t
  end.

End JsonRead.

(* ================================================================= *)
(** ** Validation *)

Module ZodFacts.
Import Js Zod.

Lemma ap_rejected_l {A B} (f : ParseResult (A -> B)) (x : ParseResult A) fld :
  rejected f fld -> rejected (ap f x) fld.
Proof.
  intros (is_ & -> & c & Hin). destruct x as [a | is2]; simpl.
  - exists is_. split; [reflexivity | exists c; exact Hin].
  - exists (is_ ++ is2)%list. split; [reflexivity |].
    exists c. apply in_or_app. left. exact Hin.
Qed.

Lemma ap_rejected_r {A B} (f : ParseResult (A -> B)) (x : ParseResult A) fld :
  rejected x fld -> rejected (ap f x) fld.
Proof.
  intros (is_ & -> & c & Hin). destruct f as [g | is1]; simpl.
  - exists is_. split; [reflexivity | exists c; exact Hin].
  - exists (is1 ++ is_)%list. split; [reflexivity |].
    exists c. apply in_or_app. right. exact Hin.
Qed.

Lemma existsb_eqb_false (s : string) (l : list string) :
  ~ In s l -> existsb (String.eqb s) l = false.
Proof.
  intros Hnot. destruct (existsb (String.eqb s) l) eqn:E; [| reflexivity].
  apply existsb_exists in E. destruct E as (x & Hin & Heq).
  apply String.eqb_eq in Heq. subst x. contradiction.
Qed.

Lemma number_out_of_range (lo hi n : Z) (p : list string) :
  (n < lo \/ hi < n)%Z ->
  exists c, exists rest, number_min_max lo hi p (VNum n)
                         = Invalid (mkIssue c p :: rest).
Proof.
  intros Hout. unfold number_min_max.
  destruct (Z.ltb n lo) eqn:Elo.
  - exists too_small. eexists. simpl. reflexivity.
  - destruct (Z.ltb hi n) eqn:Ehi.
    + exists too_big. eexists. simpl. reflexivity.
    + apply Z.ltb_ge in Elo. apply Z.ltb_ge in Ehi. lia.
Qed.

Lemma enum_outside (options : list string) (s : string) (p : list string) :
  ~ In s options ->
  enum options p (VStr s) = Invalid [mkIssue invalid_enum_value p].
Proof.
  intros Hnot. unfold enum. rewrite (existsb_eqb_false _ _ Hnot). reflexivity.
Qed.

Lemma ap_Ok_inv {A B} (f : ParseResult (A -> B)) (x : ParseResult A) (b : B) :
  ap f x = Ok b -> exists g a, f = Ok g /\ x = Ok a /\ b = g a.
Proof.
  destruct f as [g | is1], x as [a | is2]; simpl; intros H;
    try discriminate.
  injection H as <-. exists g, a. repeat split.
Qed.

Lemma number_min_max_Ok (lo hi : Z) (p : list string) (v : Value) (n : Z) :
  number_min_max lo hi p v = Ok n -> v = VNum n /\ (lo <= n <= hi)%Z.
Proof.
  unfold number_min_max. destruct v; try discriminate.
  destruct (Z.ltb n0 lo) eqn:Elo; [discriminate |].
  destruct (Z.ltb hi n0) eqn:Ehi; [discriminate |].
  simpl. intros H. injection H as <-.
  apply Z.ltb_ge in Elo. apply Z.ltb_ge in Ehi. split; [reflexivity | lia].
Qed.

Lemma enum_Ok (options : list string) (p : list string) (v : Value)
      (s : string) :
  enum options p v = Ok s -> v = VStr s /\ In s options.
Proof.
  unfold enum. destruct v; try discriminate.
  destruct (existsb (String.eqb s0) options) eqn:E; [| discriminate].
  intros H. injection H as <-. split; [reflexivity |].
  apply existsb_exists in E. destruct E as (x & Hin & Heq).
  apply String.eqb_eq in Heq. subst x. exact Hin.
Qed.

End ZodFacts.

(* ================================================================= *)
(** ** The handlers on the page *)

Module HandlerFacts.
Import Js Playwright Props.

Lemma mockApi_handle_eq (params : mockApi.Params) (pg : Page) :
  mockApi.handle params pg =
  ({| Tool.code := mockApi.transcript params;
      Tool.captureSnapshot := false;
      Tool.waitForNetwork := false |},
   {| routes := <[mockApi.url params := mockApi.interceptor params]> (routes pg);
      extraHTTPHeaders := extraHTTPHeaders pg;
      calls := (calls pg ++ [call_route (mockApi.url params)
                                        (mockApi.interceptor params)])%list |}).
Proof. reflexivity. Qed.

Lemma mockApi_registers (params : mockApi.Params) (pg : Page) :
  routes (snd (mockApi.handle params pg)) !! mockApi.url params
  = Some (mockApi.interceptor params).
Proof. rewrite mockApi_handle_eq. simpl. apply lookup_insert_eq. Qed.

Lemma mockApi_intercepted (params : mockApi.Params) (pg : Page) (r : Route) :
  intercepted (snd (mockApi.handle params pg)) (mockApi.url params) r
  = Some (mockApi.interceptor params r).
Proof. unfold intercepted. rewrite mockApi_registers. reflexivity. Qed.

Lemma clearMockApi_handle_truthy (u : string) (pg : Page) :
  truthy u = true ->
  clearMockApi.handle {| clearMockApi.url := u |} pg =
  ({| Tool.code := clearMockApi.transcript {| clearMockApi.url := u |};
      Tool.captureSnapshot := false;
      Tool.waitForNetwork := false |},
   {| routes := delete u (routes pg);
      extraHTTPHeaders := extraHTTPHeaders pg;
      calls := (calls pg ++ [call_unroute u])%list |}).
Proof.
  intros Ht. unfold clearMockApi.handle, bind, when. simpl. rewrite Ht.
  reflexivity.
Qed.

Lemma clearMockApi_handle_falsy (u : string) (pg : Page) :
  truthy u = false ->
  clearMockApi.handle {| clearMockApi.url := u |} pg =
  ({| Tool.code := clearMockApi.transcript {| clearMockApi.url := u |};
      Tool.captureSnapshot := false;
      Tool.waitForNetwork := false |}, pg).
Proof.
  intros Ht. unfold clearMockApi.handle, bind, when. simpl. rewrite Ht.
  reflexivity.
Qed.

Lemma callTool_valid {P : Type} (schema : Zod.Schema P)
      (handle : P -> M Tool.Result) (args : Value) (params : P) (pg : Page) :
  schema [] args = Zod.Ok params ->
  Tool.callTool schema handle args pg
  = (inr (fst (handle params pg)), snd (handle params pg)).
Proof.
  intros H. unfold Tool.callTool, bind, ret. rewrite H.
  destruct (handle params pg). reflexivity.
Qed.

Lemma truthy_nonempty (u : string) : u <> EmptyString -> truthy u = true.
Proof. destruct u; [congruence | reflexivity]. Qed.

Lemma clearMockApi_parses (u : string) :
  clearMockApi.inputSchema [] (VObj [("url", VStr u)])
  = Zod.Ok {| clearMockApi.url := u |}.
Proof. reflexivity. Qed.

(** With a method given, the transcript's comparison and the registered one
    agree on every request. *)
Lemma transcript_matches_given_method (params : mockApi.Params) (m : string)
      (r : Route) :
  mockApi.method params = Some m ->
  mockApi.transcript_matches params r
  = strict_eq (Playwright.method (request r)) (mockApi.method params).
Proof.
  intros Hm. unfold mockApi.transcript_matches, mockApi.transcript_literal.
  rewrite Hm. reflexivity.
Qed.

(** The third transcript line compares with the literal between the quotes. *)
Lemma transcript_third_line (params : mockApi.Params) :
  nth_error (mockApi.transcript params) 2
  = Some ("  if (route.request().method() === '"
          ++ mockApi.transcript_literal params ++ "') {").
Proof. reflexivity. Qed.

(** Arguments without a method parse to parameters whose method is absent,
    with the defaults for status and content type filled in. *)
Example x_args_parse :
  mockApi.inputSchema [] Examples.x_args = Zod.Ok Examples.x_params.
Proof. reflexivity. Qed.

Example users_args_parse :
  mockApi.inputSchema [] Examples.users_args = Zod.Ok Examples.users_params.
Proof. reflexivity. Qed.

(** The users scenario of the tool's contract, run on a fresh page. *)
Example users_scenario :
  let out := Tool.callTool mockApi.inputSchema mockApi.handle
                           Examples.users_args new_page in
  (exists res, fst out = inr res) /\
  intercepted (snd out) "/api/users" Examples.get_users
  = Some (fulfill {| status := 200; contentType := "application/json";
                     body := Examples.ok_body; headers := None |}) /\
  intercepted (snd out) "/api/users" Examples.post_users = Some continue.
Proof.
  simpl. split; [eexists; reflexivity |].
  unfold Tool.callTool. simpl. unfold intercepted. simpl.
  rewrite lookup_insert_eq. split; reflexivity.
Qed.

End HandlerFacts.

(* ================================================================= *)
(** ** The registered interceptor *)

Module Interception.
Import Js Playwright Props HandlerFacts.

(** C1: when a mock is registered with the method field absent, the
    interceptor's strict comparison of the request's method with the absent
    field is false for every request, so the interceptor lets every request
    it is given continue, and so does the page for every request it
    intercepts under the mocked url pattern: none is fulfilled. *)
Theorem mockApi_absent_method_never_fulfills
        (params : mockApi.Params) (pg : Page) (r : Route) :
  mockApi.method params = None ->
  strict_eq (Playwright.method (request r)) (mockApi.method params) = false
  /\ mockApi.interceptor params r = continue
  /\ intercepted (snd (mockApi.handle params pg)) (mockApi.url params) r
     = Some continue.
Proof.
  intros Habsent.
  assert (Hcmp : strict_eq (Playwright.method (request r))
                           (mockApi.method params) = false)
    by (rewrite Habsent; reflexivity).
  assert (Hint : mockApi.interceptor params r = continue)
    by (unfold mockApi.interceptor; rewrite Hcmp; reflexivity).
  repeat split; try assumption.
  rewrite mockApi_intercepted, Hint. reflexivity.
Qed.

Lemma mockApi_absent_method_never_fulfills_witness :
  mockApi.method Examples.x_params = None /\
  intercepted (snd (mockApi.handle Examples.x_params new_page)) "/api/x"
              Examples.get_users = Some continue.
Proof.
  split; [reflexivity |].
  apply (mockApi_absent_method_never_fulfills
           Examples.x_params new_page Examples.get_users).
  reflexivity.
Defined.

(** C2: when a mock is registered with method m, a request intercepted under
    its url pattern is fulfilled with exactly the configured status, content
    type, body and headers if its method is m, and is let continue
    otherwise. *)
Theorem mockApi_fulfills_on_method_match
        (params : mockApi.Params) (m : string) (pg : Page) (r : Route) :
  mockApi.method params = Some m ->
  (Playwright.method (request r) = m ->
   intercepted (snd (mockApi.handle params pg)) (mockApi.url params) r
   = Some (fulfill {| status := mockApi.status params;
                      contentType := mockApi.contentType params;
                      body := mockApi.body params;
                      headers := mockApi.headers params |}))
  /\ (Playwright.method (request r) <> m ->
      intercepted (snd (mockApi.handle params pg)) (mockApi.url params) r
      = Some continue).
Proof.
  intros Hm. rewrite mockApi_intercepted. unfold mockApi.interceptor.
  rewrite Hm. simpl. split; intros Hreq.
  - apply String.eqb_eq in Hreq. rewrite Hreq. reflexivity.
  - apply String.eqb_neq in Hreq. rewrite Hreq. reflexivity.
Qed.

Lemma mockApi_fulfills_on_method_match_witness :
  mockApi.method Examples.users_params = Some "GET" /\
  intercepted (snd (mockApi.handle Examples.users_params new_page))
              "/api/users" Examples.get_users
  = Some (fulfill {| status := 200; contentType := "application/json";
                     body := Examples.ok_body; headers := None |}) /\
  intercepted (snd (mockApi.handle Examples.users_params new_page))
              "/api/users" Examples.post_users
  = Some continue.
Proof.
  split; [reflexivity |]. split.
  - apply (mockApi_fulfills_on_method_match
             Examples.users_params "GET" new_page Examples.get_users);
      reflexivity.
  - apply (mockApi_fulfills_on_method_match
             Examples.users_params "GET" new_page Examples.post_users);
      [reflexivity | discriminate].
Defined.

(** C10: when the method field is absent, the transcript is not equivalent
    to the registered interceptor.  Its third line compares the request's
    method with the quoted literal 'undefined', so the rule it spells
    matches exactly the requests whose method is that string, while the
    registered interceptor, comparing with the undefined value, matches no
    request: on a request with method undefined the two differ. *)
Theorem transcript_differs_when_method_absent (params : mockApi.Params) :
  mockApi.method params = None ->
  nth_error (mockApi.transcript params) 2
  = Some "  if (route.request().method() === 'undefined') {"
  /\ (forall r : Route,
        mockApi.transcript_matches params r = true
        <-> Playwright.method (request r) = "undefined")
  /\ (forall r : Route, mockApi.interceptor params r = continue)
  /\ (exists r : Route,
        mockApi.transcript_matches params r = true
        /\ strict_eq (Playwright.method (request r)) (mockApi.method params)
           = false).
Proof.
  intros Habsent.
  assert (Hlit : mockApi.transcript_literal params = "undefined")
    by (unfold mockApi.transcript_literal; rewrite Habsent; reflexivity).
  split; [| split; [| split]].
  - rewrite transcript_third_line, Hlit. reflexivity.
  - intros r. unfold mockApi.transcript_matches. rewrite Hlit.
    apply String.eqb_eq.
  - intros r. unfold mockApi.interceptor. rewrite Habsent. reflexivity.
  - exists (mkRoute (mkRequest "/api/x" "undefined")). split.
    + unfold mockApi.transcript_matches. rewrite Hlit. reflexivity.
    + rewrite Habsent. reflexivity.
Qed.

Lemma transcript_differs_when_method_absent_witness :
  mockApi.method Examples.x_params = None /\
  nth_error (mockApi.transcript Examples.x_params) 2
  = Some "  if (route.request().method() === 'undefined') {".
Proof.
  split; [reflexivity |].
  apply (transcript_differs_when_method_absent Examples.x_params).
  reflexivity.
Defined.

End Interception.

(* ================================================================= *)
(** ** Validation before the handler *)

Module Validation.
Import Js Playwright Props ZodFacts HandlerFacts.

Lemma mockApi_rejects_status (o : list (string * Value)) :
  bad_status o -> Zod.rejected (mockApi.inputSchema [] (VObj o)) "status".
Proof.
  intros (n & Hget & Hout). unfold mockApi.inputSchema.
  do 3 apply ap_rejected_l. apply ap_rejected_r.
  unfold Zod.field, Zod.default. rewrite Hget, app_nil_l.
  destruct (number_out_of_range 100 599 n ["status"] Hout) as (c & rest & ->).
  eexists. split; [reflexivity |]. exists c. left. reflexivity.
Qed.

Lemma mockApi_rejects_method (o : list (string * Value)) :
  bad_method o -> Zod.rejected (mockApi.inputSchema [] (VObj o)) "method".
Proof.
  intros (s & Hget & Hout). unfold mockApi.inputSchema.
  do 4 apply ap_rejected_l. apply ap_rejected_r.
  unfold Zod.field, Zod.optional. rewrite Hget, app_nil_l.
  rewrite (enum_outside _ _ _ Hout).
  eexists. split; [reflexivity |]. exists Zod.invalid_enum_value.
  left. reflexivity.
Qed.

(** What the schema lets through: the arguments are an object, the parsed
    status lies within 100..599, the parsed url is the string given, and the
    parsed method is one of the verbs when the arguments carry one and absent
    when they carry none. *)
Lemma mockApi_inputSchema_sound (v : Value) (params : mockApi.Params) :
  mockApi.inputSchema [] v = Zod.Ok params ->
  exists o, v = VObj o
    /\ get o "url" = VStr (mockApi.url params)
    /\ (100 <= mockApi.status params <= 599)%Z
    /\ match mockApi.method params with
       | None => get o "method" = VUndefined
       | Some m => get o "method" = VStr m /\ In m mockApi.verbs
       end.
Proof.
  destruct v as [| | | | | | o]; try discriminate.
  unfold mockApi.inputSchema. intros H. exists o. split; [reflexivity |].
  apply ap_Ok_inv in H. destruct H as (g5 & hs & H & _ & ->).
  apply ap_Ok_inv in H. destruct H as (g4 & b & H & _ & ->).
  apply ap_Ok_inv in H. destruct H as (g3 & ct & H & _ & ->).
  apply ap_Ok_inv in H. destruct H as (g2 & st & H & Hst & ->).
  apply ap_Ok_inv in H. destruct H as (g1 & mo & H & Hmo & ->).
  apply ap_Ok_inv in H. destruct H as (g0 & u & H & Hu & ->).
  injection H as <-. simpl.
  unfold Zod.field in Hu, Hmo, Hst. split; [| split].
  - unfold Zod.string_ in Hu. destruct (get o "url"); try discriminate.
    injection Hu as ->. reflexivity.
  - unfold Zod.default in Hst.
    destruct (get o "status");
      apply number_min_max_Ok in Hst; destruct Hst as [_ Hr]; exact Hr.
  - unfold Zod.optional in Hmo.
    destruct (get o "method") eqn:Eg;
      try (injection Hmo as <-; reflexivity);
      destruct (Zod.enum mockApi.verbs _ _) as [m | is_] eqn:Ee;
      try discriminate; injection Hmo as <-;
      apply enum_Ok in Ee; destruct Ee as [Ev Hin]; try discriminate.
    injection Ev as ->. split; [reflexivity | exact Hin].
Qed.

Lemma callTool_invalid {P : Type} (schema : Zod.Schema P)
      (handle : P -> M Tool.Result) (args : Value) (is_ : list Zod.Issue)
      (pg : Page) :
  schema [] args = Zod.Invalid is_ ->
  Tool.callTool schema handle args pg = (inl is_, pg).
Proof. intros H. unfold Tool.callTool. rewrite H. reflexivity. Qed.

(** C3: a mock-api call whose status is a number outside 100..599, or whose
    method is a string outside the seven verbs, is rejected by validation
    with issues that name the offending field, and the page is left exactly
    as it was: no route is registered and no page call is made. *)
Theorem mockApi_invalid_input_rejected_before_page
        (o : list (string * Value)) (pg : Page) :
  bad_status o \/ bad_method o ->
  exists issues,
    Tool.callTool mockApi.inputSchema mockApi.handle (VObj o) pg
    = (inl issues, pg)
    /\ (bad_status o -> Zod.names "status" issues)
    /\ (bad_method o -> Zod.names "method" issues).
Proof.
  intros Hbad.
  assert (Hrej : exists issues,
             mockApi.inputSchema [] (VObj o) = Zod.Invalid issues).
  { destruct Hbad as [Hs | Hm].
    - destruct (mockApi_rejects_status o Hs) as (is_ & E & _). eauto.
    - destruct (mockApi_rejects_method o Hm) as (is_ & E & _). eauto. }
  destruct Hrej as (issues & E). exists issues.
  split; [apply callTool_invalid; exact E |]. split.
  - intros Hs. destruct (mockApi_rejects_status o Hs) as (is_ & E' & Hn).
    rewrite E in E'. injection E' as ->. exact Hn.
  - intros Hm. destruct (mockApi_rejects_method o Hm) as (is_ & E' & Hn).
    rewrite E in E'. injection E' as ->. exact Hn.
Qed.

Lemma mockApi_invalid_input_rejected_before_page_witness :
  bad_status Examples.status_600_args /\
  exists issues,
    Tool.callTool mockApi.inputSchema mockApi.handle
                  (VObj Examples.status_600_args) new_page
    = (inl issues, new_page)
    /\ Zod.names "status" issues.
Proof.
  assert (Hbad : bad_status Examples.status_600_args).
  { exists 600%Z. split; [reflexivity | right; lia]. }
  split; [exact Hbad |].
  destruct (mockApi_invalid_input_rejected_before_page
              Examples.status_600_args new_page (or_introl Hbad))
    as (issues & E & Hs & _).
  exists issues. split; [exact E | exact (Hs Hbad)].
Defined.

(** C4, on the code: a clear-mock-api call with the url argument omitted does
    not reach the handler.  The schema requires url to be a string, so the
    call is rejected with an issue at url; no transcript is returned and the
    page is as it was. *)
Theorem clearMockApi_omitted_url_rejected
        (o : list (string * Value)) (pg : Page) :
  get o "url" = VUndefined ->
  clearMockApi.inputSchema [] (VObj o)
  = Zod.Invalid [Zod.mkIssue Zod.invalid_type ["url"]]
  /\ Tool.callTool clearMockApi.inputSchema clearMockApi.handle (VObj o) pg
     = (inl [Zod.mkIssue Zod.invalid_type ["url"]], pg).
Proof.
  intros Habsent.
  assert (E : clearMockApi.inputSchema [] (VObj o)
              = Zod.Invalid [Zod.mkIssue Zod.invalid_type ["url"]]).
  { unfold clearMockApi.inputSchema, Zod.field. rewrite Habsent.
    reflexivity. }
  split; [exact E | apply callTool_invalid; exact E].
Qed.

Lemma clearMockApi_omitted_url_rejected_witness :
  get [] "url" = VUndefined /\
  Tool.callTool clearMockApi.inputSchema clearMockApi.handle (VObj []) new_page
  = (inl [Zod.mkIssue Zod.invalid_type ["url"]], new_page).
Proof.
  split; [reflexivity |].
  exact (proj2 (clearMockApi_omitted_url_rejected [] new_page eq_refl)).
Defined.

(** C9: the schema of clear-mock-api accepts any string as url, the empty
    one included.  On the empty string the handler's guard is false, as it
    would be on an absent url, so no unroute call is made: the result is the
    transcript and the page is exactly as before, routing table included.
    On every other string the unroute call is made. *)
Theorem clearMockApi_empty_url_no_unroute (pg : Page) :
  (forall u : string,
      clearMockApi.inputSchema [] (VObj [("url", VStr u)])
      = Zod.Ok {| clearMockApi.url := u |})
  /\ truthy EmptyString = false
  /\ Tool.callTool clearMockApi.inputSchema clearMockApi.handle
       (VObj [("url", VStr EmptyString)]) pg
     = (inr {| Tool.code := ["// Clear Mock API response for ";
                             "await page.unroute('');"];
               Tool.captureSnapshot := false;
               Tool.waitForNetwork := false |}, pg)
  /\ unroute_issued
       (snd (Tool.callTool clearMockApi.inputSchema clearMockApi.handle
               (VObj [("url", VStr EmptyString)]) pg))
     = unroute_issued pg
  /\ (forall (a : ascii) (u' : string),
        calls (snd (Tool.callTool clearMockApi.inputSchema
                      clearMockApi.handle
                      (VObj [("url", VStr (String a u'))]) pg))
        = (calls pg ++ [call_unroute (String a u')])%list).
Proof.
  split; [exact clearMockApi_parses |].
  split; [reflexivity |].
  split; [| split].
  - rewrite (callTool_valid _ _ _ _ pg (clearMockApi_parses EmptyString)).
    rewrite clearMockApi_handle_falsy by reflexivity. reflexivity.
  - rewrite (callTool_valid _ _ _ _ pg (clearMockApi_parses EmptyString)).
    rewrite clearMockApi_handle_falsy by reflexivity. reflexivity.
  - intros a u'.
    rewrite (callTool_valid _ _ _ _ pg (clearMockApi_parses (String a u'))).
    rewrite clearMockApi_handle_truthy by reflexivity. reflexivity.
Qed.

End Validation.

(* ================================================================= *)
(** ** Clearing a mock *)

Module Clearing.
Import Js Playwright Props HandlerFacts.

(** C5: clearing a url pattern for which no mock is registered is accepted,
    returns a result rather than an error, and leaves the routing table as
    it was. *)
Theorem clearMock_unregistered_pattern_noop (P : string) (pg : Page) :
  routes pg !! P = None ->
  exists (res : Tool.Result) (pg' : Page),
    Tool.callTool clearMockApi.inputSchema clearMockApi.handle
                  (VObj [("url", VStr P)]) pg = (inr res, pg')
    /\ routes pg' = routes pg.
Proof.
  intros Hnone.
  rewrite (callTool_valid _ _ _ _ pg (clearMockApi_parses P)).
  destruct (truthy P) eqn:Ht.
  - rewrite (clearMockApi_handle_truthy P pg Ht). simpl.
    eexists. eexists. split; [reflexivity |]. simpl.
    apply delete_id. exact Hnone.
  - rewrite (clearMockApi_handle_falsy P pg Ht). simpl.
    eexists. eexists. split; reflexivity.
Qed.

Lemma clearMock_unregistered_pattern_noop_witness :
  routes new_page !! "/api/users" = None /\
  exists (res : Tool.Result) (pg' : Page),
    Tool.callTool clearMockApi.inputSchema clearMockApi.handle
                  (VObj [("url", VStr "/api/users")]) new_page = (inr res, pg')
    /\ routes pg' = routes new_page.
Proof.
  split; [reflexivity |].
  apply (clearMock_unregistered_pattern_noop "/api/users" new_page).
  reflexivity.
Defined.

(** Outside the rules with a non-empty url: the schema lets the empty url
    pattern through, the mock is registered under it, and the clear that
    follows makes no unroute call, so the registration is still there. *)
Lemma register_then_clear_empty_pattern_remains :
  mockApi.inputSchema [] Examples.empty_url_args
  = Zod.Ok Examples.empty_url_params
  /\ routes (register_then_clear Examples.empty_url_params new_page)
       !! mockApi.url Examples.empty_url_params
     = Some (mockApi.interceptor Examples.empty_url_params)
  /\ routes (register_then_clear Examples.empty_url_params new_page)
       !! mockApi.url Examples.empty_url_params
     <> None.
Proof.
  split; [reflexivity |].
  assert (H : routes (register_then_clear Examples.empty_url_params new_page)
                !! mockApi.url Examples.empty_url_params
              = Some (mockApi.interceptor Examples.empty_url_params)).
  { unfold register_then_clear.
    rewrite clearMockApi_handle_falsy by reflexivity.
    apply mockApi_registers. }
  split; [exact H | rewrite H; discriminate].
Qed.

(** C6: for every rule with a url pattern P, a pattern being a non-empty
    string, registering the mock and then clearing P leaves no registration
    and no interception for P, and the registrations of all other patterns
    are those of the page before. *)
Theorem register_then_clear_nonempty_pattern
        (params : mockApi.Params) (pg : Page) :
  mockApi.url params <> EmptyString ->
  routes (register_then_clear params pg) !! mockApi.url params = None
  /\ (forall Q : string,
        Q <> mockApi.url params ->
        routes (register_then_clear params pg) !! Q = routes pg !! Q)
  /\ (forall r : Route,
        intercepted (register_then_clear params pg) (mockApi.url params) r
        = None).
Proof.
  intros Hne. unfold register_then_clear, intercepted.
  rewrite (clearMockApi_handle_truthy _ _ (truthy_nonempty _ Hne)).
  rewrite mockApi_handle_eq. simpl.
  split; [apply lookup_delete_eq |]. split.
  - intros Q HQ.
    rewrite lookup_delete_ne by congruence.
    rewrite lookup_insert_ne by congruence. reflexivity.
  - intros r. rewrite lookup_delete_eq. reflexivity.
Qed.

Lemma register_then_clear_nonempty_pattern_witness :
  mockApi.url Examples.users_params <> EmptyString /\
  routes (register_then_clear Examples.users_params new_page)
    !! mockApi.url Examples.users_params = None.
Proof.
  assert (Hne : mockApi.url Examples.users_params <> EmptyString)
    by discriminate.
  split; [exact Hne |].
  exact (proj1 (register_then_clear_nonempty_pattern
                  Examples.users_params new_page Hne)).
Defined.

End Clearing.

(* ================================================================= *)
(** ** Extra headers and the returned result *)

Module Results.
Import Js Playwright Props HandlerFacts.

(** C7: a set-headers call makes exactly one page call, the one that sets the
    extra headers to the supplied map; afterwards the page's extra headers
    are exactly that map whatever they were before (also right after an
    earlier set-headers call: nothing of the earlier set is kept), and the
    routing table is untouched.  With the empty map the
    page is left with no extra headers. *)
Theorem setHeaders_replaces_wholesale
        (params : setHeaders.Params) (pg : Page) :
  extraHTTPHeaders (snd (setHeaders.handle params pg))
  = setHeaders.headers params
  /\ calls (snd (setHeaders.handle params pg))
     = (calls pg ++ [call_setExtraHTTPHeaders (setHeaders.headers params)])%list
  /\ routes (snd (setHeaders.handle params pg)) = routes pg
  /\ (forall earlier : setHeaders.Params,
        extraHTTPHeaders
          (snd (setHeaders.handle params
                  (snd (setHeaders.handle earlier pg))))
        = setHeaders.headers params)
  /\ extraHTTPHeaders
       (snd (Tool.callTool setHeaders.inputSchema setHeaders.handle
               (VObj [("headers", VObj [])]) pg))
     = [].
Proof. repeat split; reflexivity. Qed.

(** C8: each of the three handlers returns, for every parameters value and
    page, a result made of the lines of its transcript, in order, and the
    two flags captureSnapshot and waitForNetwork, both false. *)
Theorem results_are_transcript_and_false_flags :
  (forall (params : mockApi.Params) (pg : Page),
      fst (mockApi.handle params pg)
      = {| Tool.code := mockApi.transcript params;
           Tool.captureSnapshot := false;
           Tool.waitForNetwork := false |})
  /\ (forall (params : clearMockApi.Params) (pg : Page),
         fst (clearMockApi.handle params pg)
         = {| Tool.code := clearMockApi.transcript params;
              Tool.captureSnapshot := false;
              Tool.waitForNetwork := false |})
  /\ (forall (params : setHeaders.Params) (pg : Page),
         fst (setHeaders.handle params pg)
         = {| Tool.code := setHeaders.transcript params;
              Tool.captureSnapshot := false;
              Tool.waitForNetwork := false |}).
Proof.
  split; [| split]; intros params pg; try reflexivity.
  destruct params as [u]. destruct (truthy u) eqn:Ht.
  - rewrite (clearMockApi_handle_truthy u pg Ht). reflexivity.
  - rewrite (clearMockApi_handle_falsy u pg Ht). reflexivity.
Qed.

End Results.

(* ================================================================= *)
(** ** What the schemas accept *)

Module SchemaFacts.
Import Js Playwright Fields ZodFacts HandlerFacts.

Lemma string_Ok (p : list string) (v : Value) (s : string) :
  Zod.string_ p v = Zod.Ok s <-> v = VStr s.
Proof.
  unfold Zod.string_. split.
  - destruct v; try discriminate. intros H. injection H as ->. reflexivity.
  - intros ->. reflexivity.
Qed.

Lemma existsb_eqb_true (s : string) (l : list string) :
  In s l -> existsb (String.eqb s) l = true.
Proof.
  intros Hin. apply existsb_exists. exists s. split; [exact Hin |].
  apply String.eqb_refl.
Qed.

Lemma method_Ok (p : list string) (v : Value) (m : option string) :
  Zod.optional (Zod.enum mockApi.verbs) p v = Zod.Ok m <-> method_field v m.
Proof.
  unfold Zod.optional, method_field. split.
  - destruct v; try (intros H; injection H as <-; left; split; reflexivity);
      destruct (Zod.enum mockApi.verbs p _) as [s' | is_] eqn:E;
      try discriminate; intros H; injection H as <-;
      apply enum_Ok in E; destruct E as [Ev Hin]; try discriminate.
    injection Ev as ->. right. exists s'. repeat split. exact Hin.
  - intros [[-> ->] | (s & -> & -> & Hin)]; [reflexivity |].
    unfold Zod.enum. rewrite (existsb_eqb_true _ _ Hin). reflexivity.
Qed.

Lemma status_Ok (p : list string) (v : Value) (n : Z) :
  Zod.default (Zod.number_min_max 100 599) (VNum 200) p v = Zod.Ok n
  <-> status_field v n.
Proof.
  unfold Zod.default, status_field. split.
  - destruct v; intros H; apply number_min_max_Ok in H;
      destruct H as [Ev Hr]; try discriminate.
    + injection Ev as <-. left. split; reflexivity.
    + injection Ev as <-. right. split; [reflexivity | exact Hr].
  - intros [[-> ->] | [-> Hr]]; [reflexivity |].
    unfold Zod.number_min_max.
    destruct (Z.ltb n 100) eqn:Elo; [apply Z.ltb_lt in Elo; lia |].
    destruct (Z.ltb 599 n) eqn:Ehi; [apply Z.ltb_lt in Ehi; lia |].
    reflexivity.
Qed.

Lemma contentType_Ok (p : list string) (v : Value) (s : string) :
  Zod.default Zod.string_ (VStr "application/json") p v = Zod.Ok s
  <-> contentType_field v s.
Proof.
  unfold Zod.default, contentType_field. split.
  - destruct v; intros H; apply string_Ok in H; try discriminate.
    + injection H as <-. left. split; reflexivity.
    + right. exact H.
  - intros [[-> ->] | ->]; reflexivity.
Qed.

Lemma record_entries_cons (p : list string) (k : string) (v : Value)
      (rest : list (string * Value)) :
  Zod.record_entries p ((k, v) :: rest)
  = Zod.ap (Zod.ap (Zod.Ok (fun s r => if String.eqb k Zod.proto_key then r
                                       else (k, s) :: r))
                   (Zod.string_ (p ++ [k])%list v))
           (Zod.record_entries p rest).
Proof. reflexivity. Qed.

Lemma filter_kept_cons (k s : string) (r : StringRecord) :
  List.filter kept ((k, s) :: r)
  = if String.eqb k Zod.proto_key then List.filter kept r
    else (k, s) :: List.filter kept r.
Proof.
  unfold kept at 1. simpl. destruct (String.eqb k Zod.proto_key); reflexivity.
Qed.

Lemma record_entries_Ok (p : list string) (props : list (string * Value))
      (r : StringRecord) :
  Zod.record_entries p props = Zod.Ok r
  <-> exists entries : StringRecord,
      props = map (fun kv => (fst kv, VStr (snd kv))) entries
      /\ r = List.filter kept entries.
Proof.
  revert r. induction props as [| [k v] rest IH]; intros r.
  - simpl. split.
    + intros H. injection H as <-. exists []. split; reflexivity.
    + intros (entries & He & ->). destruct entries; [reflexivity |].
      discriminate.
  - rewrite record_entries_cons. split.
    + intros H. apply ap_Ok_inv in H. destruct H as (g & r' & H & Hr & ->).
      apply ap_Ok_inv in H. destruct H as (g0 & s & H0 & Hs & ->).
      injection H0 as <-. apply string_Ok in Hs. subst v.
      apply IH in Hr. destruct Hr as (entries & -> & ->).
      exists ((k, s) :: entries). split; [reflexivity |].
      rewrite filter_kept_cons. reflexivity.
    + intros (entries & He & ->).
      destruct entries as [| [k' s] entries']; [discriminate |].
      simpl in He. injection He as -> -> ->.
      assert (Hrest : Zod.record_entries p
                        (map (fun kv => (fst kv, VStr (snd kv))) entries')
                      = Zod.Ok (List.filter kept entries')).
      { apply IH. exists entries'. split; reflexivity. }
      rewrite Hrest, filter_kept_cons. reflexivity.
Qed.

Lemma record_string_Ok (p : list string) (v : Value) (r : StringRecord) :
  Zod.record_string p v = Zod.Ok r <-> record_of v r.
Proof.
  unfold Zod.record_string, record_of, of_record. split.
  - destruct v; try discriminate. intros H.
    apply record_entries_Ok in H. destruct H as (entries & -> & ->).
    exists entries. split; reflexivity.
  - intros (entries & -> & ->). apply record_entries_Ok.
    exists entries. split; reflexivity.
Qed.

Lemma headers_Ok (p : list string) (v : Value) (h : option StringRecord) :
  Zod.optional Zod.record_string p v = Zod.Ok h <-> headers_field v h.
Proof.
  unfold headers_field. split.
  - unfold Zod.optional.
    destruct v; try (intros H; injection H as <-; left; split; reflexivity);
      destruct (Zod.record_string p _) as [r | is_] eqn:E;
      try discriminate; intros H; injection H as <-;
      apply record_string_Ok in E; right; exists r; split;
      [exact E | reflexivity].
  - intros [[-> ->] | (r & Hr & ->)]; [reflexivity |].
    pose proof Hr as (entries & -> & _).
    apply (record_string_Ok p) in Hr. unfold of_record in *.
    unfold Zod.optional. rewrite Hr. reflexivity.
Qed.

(** X1: the arguments object [o] parses to [params] exactly when each field
    holds an acceptable value and [params] carries it: url and body the
    strings given; method absent, or one of the verbs; status 200 when
    absent, else the number given, within 100..599; contentType
    application/json when absent, else the string given; headers absent, or
    an object all of whose values are strings, of which the parameters carry
    the entries in their order, one under the key __proto__ left out. *)
Theorem mockApi_inputSchema_accepts_exactly
        (o : list (string * Value)) (params : mockApi.Params) :
  mockApi.inputSchema [] (VObj o) = Zod.Ok params
  <-> (get o "url" = VStr (mockApi.url params)
       /\ method_field (get o "method") (mockApi.method params)
       /\ status_field (get o "status") (mockApi.status params)
       /\ contentType_field (get o "contentType") (mockApi.contentType params)
       /\ get o "body" = VStr (mockApi.body params)
       /\ headers_field (get o "headers") (mockApi.headers params)).
Proof.
  unfold mockApi.inputSchema, Zod.field. split.
  - intros H.
    apply ap_Ok_inv in H. destruct H as (g5 & hs & H & Hh & ->).
    apply ap_Ok_inv in H. destruct H as (g4 & b & H & Hb & ->).
    apply ap_Ok_inv in H. destruct H as (g3 & ct & H & Hct & ->).
    apply ap_Ok_inv in H. destruct H as (g2 & st & H & Hst & ->).
    apply ap_Ok_inv in H. destruct H as (g1 & mo & H & Hmo & ->).
    apply ap_Ok_inv in H. destruct H as (g0 & u & H & Hu & ->).
    injection H as <-. simpl.
    apply string_Ok in Hu. apply method_Ok in Hmo. apply status_Ok in Hst.
    apply contentType_Ok in Hct. apply string_Ok in Hb.
    apply headers_Ok in Hh. repeat split; assumption.
  - intros (Hu & Hmo & Hst & Hct & Hb & Hh).
    apply (string_Ok ([] ++ ["url"])) in Hu.
    apply (method_Ok ([] ++ ["method"])) in Hmo.
    apply (status_Ok ([] ++ ["status"])) in Hst.
    apply (contentType_Ok ([] ++ ["contentType"])) in Hct.
    apply (string_Ok ([] ++ ["body"])) in Hb.
    apply (headers_Ok ([] ++ ["headers"])) in Hh.
    rewrite Hu, Hmo, Hst, Hct, Hb, Hh. simpl. destruct params; reflexivity.
Qed.

Lemma issues_of_ap {A B} (f : Zod.ParseResult (A -> B))
      (x : Zod.ParseResult A) :
  issues_of (Zod.ap f x) = (issues_of f ++ issues_of x)%list.
Proof.
  destruct f, x; simpl; try reflexivity. symmetry. apply app_nil_r.
Qed.

Lemma names_app (fld : string) (l1 l2 : list Zod.Issue) :
  Zod.names fld (l1 ++ l2)%list <-> Zod.names fld l1 \/ Zod.names fld l2.
Proof.
  unfold Zod.names. split.
  - intros (c & Hin). apply in_app_or in Hin.
    destruct Hin; [left | right]; exists c; assumption.
  - intros [(c & Hin) | (c & Hin)]; exists c; apply in_or_app;
      [left | right]; assumption.
Qed.

Lemma names_nil (fld : string) : ~ Zod.names fld [].
Proof. intros (c & []). Qed.

Lemma blames_string (p : list string) (v : Value) :
  blames p (Zod.string_ p v).
Proof.
  unfold blames, Zod.string_. destruct v; simpl; split;
    try (intros i [<- | []]; reflexivity); try discriminate;
    try (intros i []). eauto.
Qed.

Lemma blames_enum (options : list string) (p : list string) (v : Value) :
  blames p (Zod.enum options p v).
Proof.
  unfold blames, Zod.enum. destruct v; simpl; split;
    try (intros i [<- | []]; reflexivity); try discriminate.
  - destruct (existsb _ _); simpl; [intros i [] |].
    intros i [<- | []]; reflexivity.
  - destruct (existsb _ _); simpl; [eauto | discriminate].
Qed.

Lemma blames_number (lo hi : Z) (p : list string) (v : Value) :
  blames p (Zod.number_min_max lo hi p v).
Proof.
  unfold blames, Zod.number_min_max. destruct v; simpl; split;
    try (intros i [<- | []]; reflexivity); try discriminate.
  - destruct (Z.ltb n lo), (Z.ltb hi n); simpl;
      intros i Hin; repeat (destruct Hin as [<- | Hin]; [reflexivity |]);
      destruct Hin.
  - destruct (Z.ltb n lo), (Z.ltb hi n); simpl; try discriminate. eauto.
Qed.

Lemma blames_optional {A} (s : Zod.Schema A) (p : list string) (v : Value) :
  blames p (s p v) -> blames p (Zod.optional s p v).
Proof.
  unfold blames, Zod.optional. intros [Hp He].
  destruct v; simpl; try (split; [intros i [] | eauto]);
    destruct (s p _) as [a | is_]; simpl in *;
    (split; [exact Hp | intros H; destruct (He H) as (a' & Ha); eauto;
                        discriminate]).
Qed.

Lemma blames_default {A} (s : Zod.Schema A) (d : Value) (p : list string)
      (v : Value) :
  (forall w, blames p (s p w)) -> blames p (Zod.default s d p v).
Proof. intros H. unfold Zod.default. destruct v; apply H. Qed.

(** A field that blames only its own place is named exactly when it fails,
    and never names another place. *)
Lemma blames_names {A} (fld : string) (r : Zod.ParseResult A) :
  blames [fld] r ->
  (Zod.names fld (issues_of r) <-> ~ exists a, r = Zod.Ok a).
Proof.
  intros [Hp He]. split.
  - intros (c & Hin) (a & ->). destruct Hin.
  - intros Hno. destruct (issues_of r) as [| i rest] eqn:E.
    + exfalso. apply Hno. apply He. reflexivity.
    + exists (Zod.code i). left.
      assert (Hi : Zod.path i = [fld]) by (apply Hp; left; reflexivity).
      destruct i as [c q]. simpl in *. subst q. reflexivity.
Qed.

Lemma blames_other {A} (fld other : string) (r : Zod.ParseResult A) :
  blames [other] r -> other <> fld -> ~ Zod.names fld (issues_of r).
Proof.
  intros [Hp _] Hne (c & Hin). apply Hp in Hin. simpl in Hin.
  injection Hin as ->. congruence.
Qed.

(** The issues of a record of strings sit at the record or one key below. *)
Lemma record_entries_paths (p : list string) (props : list (string * Value))
      (i : Zod.Issue) :
  In i (issues_of (Zod.record_entries p props)) ->
  exists k, Zod.path i = (p ++ [k])%list.
Proof.
  induction props as [| [k v] rest IH]; [intros [] |].
  rewrite record_entries_cons, !issues_of_ap. simpl.
  intros Hin. apply in_app_or in Hin. destruct Hin as [Hin | Hin].
  - exists k. apply (proj1 (blames_string _ v)). exact Hin.
  - apply IH. exact Hin.
Qed.

Lemma issues_of_optional {A} (s : Zod.Schema A) (p : list string)
      (v : Value) :
  v <> VUndefined ->
  issues_of (Zod.optional s p v) = issues_of (s p v).
Proof.
  intros Hv. unfold Zod.optional.
  destruct v; try congruence; destruct (s p _); reflexivity.
Qed.

Lemma headers_field_other (o : list (string * Value)) (fld : string) :
  fld <> "headers" ->
  ~ Zod.names fld
      (issues_of (Zod.field o [] "headers"
                            (Zod.optional Zod.record_string))).
Proof.
  intros Hne (c & Hin). unfold Zod.field in Hin.
  destruct (get o "headers") eqn:E; [destruct Hin | ..];
    rewrite issues_of_optional in Hin by discriminate.
  1-5: destruct Hin as [Hin | []]; injection Hin; intros; congruence.
  apply record_entries_paths in Hin. destruct Hin as (k & Hk).
  simpl in Hk. discriminate.
Qed.

Lemma headers_field_names (o : list (string * Value)) :
  Zod.names "headers"
    (issues_of (Zod.field o [] "headers" (Zod.optional Zod.record_string)))
  <-> get o "headers" <> VUndefined /\ is_object (get o "headers") = false.
Proof.
  unfold Zod.field. destruct (get o "headers") eqn:E.
  - split; [intros (c & []) | intros [H _]; congruence].
  - split; [intros _; split; [discriminate | reflexivity]
           | intros _; exists Zod.invalid_type; left; reflexivity].
  - split; [intros _; split; [discriminate | reflexivity]
           | intros _; exists Zod.invalid_type; left; reflexivity].
  - split; [intros _; split; [discriminate | reflexivity]
           | intros _; exists Zod.invalid_type; left; reflexivity].
  - split; [intros _; split; [discriminate | reflexivity]
           | intros _; exists Zod.invalid_type; left; reflexivity].
  - split; [intros _; split; [discriminate | reflexivity]
           | intros _; exists Zod.invalid_type; left; reflexivity].
  - split; [| intros [_ H]; discriminate].
    intros (c & Hin).
    rewrite issues_of_optional in Hin by discriminate.
    apply record_entries_paths in Hin. destruct Hin as (k & Hk).
    simpl in Hk. discriminate.
Qed.

Lemma mockApi_issues (o : list (string * Value)) (fld : string) :
  Zod.names fld (issues_of (mockApi.inputSchema [] (VObj o)))
  <-> Zod.names fld (issues_of (Zod.field o [] "url" Zod.string_))
      \/ Zod.names fld
           (issues_of (Zod.field o [] "method"
                         (Zod.optional (Zod.enum mockApi.verbs))))
      \/ Zod.names fld
           (issues_of (Zod.field o [] "status"
                         (Zod.default (Zod.number_min_max 100 599)
                                      (VNum 200))))
      \/ Zod.names fld
           (issues_of (Zod.field o [] "contentType"
                         (Zod.default Zod.string_
                                      (VStr "application/json"))))
      \/ Zod.names fld (issues_of (Zod.field o [] "body" Zod.string_))
      \/ Zod.names fld
           (issues_of (Zod.field o [] "headers"
                         (Zod.optional Zod.record_string))).
Proof.
  unfold mockApi.inputSchema. rewrite !issues_of_ap, !names_app.
  simpl issues_of at 1. pose proof (names_nil fld). tauto.
Qed.

Lemma blames_url (o : list (string * Value)) :
  blames ["url"] (Zod.field o [] "url" Zod.string_).
Proof. apply blames_string. Qed.

Lemma blames_body (o : list (string * Value)) :
  blames ["body"] (Zod.field o [] "body" Zod.string_).
Proof. apply blames_string. Qed.

Lemma blames_method (o : list (string * Value)) :
  blames ["method"]
         (Zod.field o [] "method" (Zod.optional (Zod.enum mockApi.verbs))).
Proof. apply blames_optional, blames_enum. Qed.

Lemma blames_status (o : list (string * Value)) :
  blames ["status"]
         (Zod.field o [] "status"
            (Zod.default (Zod.number_min_max 100 599) (VNum 200))).
Proof. apply blames_default. intros w. apply blames_number. Qed.

Lemma blames_contentType (o : list (string * Value)) :
  blames ["contentType"]
         (Zod.field o [] "contentType"
            (Zod.default Zod.string_ (VStr "application/json"))).
Proof. apply blames_default. intros w. apply blames_string. Qed.

Lemma string_fails (p : list string) (v : Value) :
  (~ exists s, Zod.string_ p v = Zod.Ok s) <-> is_string v = false.
Proof.
  destruct v; simpl; split; try reflexivity; try discriminate;
    try (intros _ (s' & H); discriminate).
  intros H. exfalso. apply H. eauto.
Qed.

(** X2: when validation of mock-api arguments fails, its issues name a field
    exactly when that field's value is not acceptable: url and body when
    they are not strings; method, status and contentType when their value
    parses to nothing; headers when it is present and not an object.  No
    field is blamed for the fault of another. *)
Theorem mockApi_issues_name_exactly_the_offending
        (o : list (string * Value)) :
  (Zod.names "url" (issues_of (mockApi.inputSchema [] (VObj o)))
   <-> is_string (get o "url") = false)
  /\ (Zod.names "method" (issues_of (mockApi.inputSchema [] (VObj o)))
      <-> ~ exists m, method_field (get o "method") m)
  /\ (Zod.names "status" (issues_of (mockApi.inputSchema [] (VObj o)))
      <-> ~ exists n, status_field (get o "status") n)
  /\ (Zod.names "contentType" (issues_of (mockApi.inputSchema [] (VObj o)))
      <-> ~ exists s, contentType_field (get o "contentType") s)
  /\ (Zod.names "body" (issues_of (mockApi.inputSchema [] (VObj o)))
      <-> is_string (get o "body") = false)
  /\ (Zod.names "headers" (issues_of (mockApi.inputSchema [] (VObj o)))
      <-> get o "headers" <> VUndefined
          /\ is_object (get o "headers") = false).
Proof.
  pose proof (blames_url o) as Bu. pose proof (blames_method o) as Bm.
  pose proof (blames_status o) as Bs.
  pose proof (blames_contentType o) as Bc.
  pose proof (blames_body o) as Bb.
  split; [| split; [| split; [| split; [| split]]]]; split; intros H.
  all: try (apply mockApi_issues in H).
  all: try (apply mockApi_issues).
  - apply (string_fails ["url"]). apply (blames_names "url" _ Bu).
    destruct H as [H | [H | [H | [H | [H | H]]]]]; try exact H; exfalso.
    + revert H. apply (blames_other _ _ _ Bm). discriminate.
    + revert H. apply (blames_other _ _ _ Bs). discriminate.
    + revert H. apply (blames_other _ _ _ Bc). discriminate.
    + revert H. apply (blames_other _ _ _ Bb). discriminate.
    + revert H. apply headers_field_other. discriminate.
  - left. apply (blames_names "url" _ Bu).
    apply (string_fails ["url"]). exact H.
  - intros (m & Hm). apply (method_Ok ["method"]) in Hm.
    assert (Hn : Zod.names "method"
                   (issues_of (Zod.field o [] "method"
                                 (Zod.optional (Zod.enum mockApi.verbs))))).
    { destruct H as [H | [H | [H | [H | [H | H]]]]]; try exact H; exfalso.
      + revert H. apply (blames_other _ _ _ Bu). discriminate.
      + revert H. apply (blames_other _ _ _ Bs). discriminate.
      + revert H. apply (blames_other _ _ _ Bc). discriminate.
      + revert H. apply (blames_other _ _ _ Bb). discriminate.
      + revert H. apply headers_field_other. discriminate. }
    apply (blames_names "method" _ Bm) in Hn. apply Hn. eauto.
  - right. left. apply (blames_names "method" _ Bm).
    intros (m & Hm). apply H. exists m. apply (method_Ok ["method"]).
    exact Hm.
  - intros (n & Hn'). apply (status_Ok ["status"]) in Hn'.
    assert (Hn : Zod.names "status"
                   (issues_of (Zod.field o [] "status"
                                 (Zod.default (Zod.number_min_max 100 599)
                                              (VNum 200))))).
    { destruct H as [H | [H | [H | [H | [H | H]]]]]; try exact H; exfalso.
      + revert H. apply (blames_other _ _ _ Bu). discriminate.
      + revert H. apply (blames_other _ _ _ Bm). discriminate.
      + revert H. apply (blames_other _ _ _ Bc). discriminate.
      + revert H. apply (blames_other _ _ _ Bb). discriminate.
      + revert H. apply headers_field_other. discriminate. }
    apply (blames_names "status" _ Bs) in Hn. apply Hn. eauto.
  - right. right. left. apply (blames_names "status" _ Bs).
    intros (n & Hn). apply H. exists n. apply (status_Ok ["status"]).
    exact Hn.
  - intros (s & Hs). apply (contentType_Ok ["contentType"]) in Hs.
    assert (Hn : Zod.names "contentType"
                   (issues_of (Zod.field o [] "contentType"
                                 (Zod.default Zod.string_
                                    (VStr "application/json"))))).
    { destruct H as [H | [H | [H | [H | [H | H]]]]]; try exact H; exfalso.
      + revert H. apply (blames_other _ _ _ Bu). discriminate.
      + revert H. apply (blames_other _ _ _ Bm). discriminate.
      + revert H. apply (blames_other _ _ _ Bs). discriminate.
      + revert H. apply (blames_other _ _ _ Bb). discriminate.
      + revert H. apply headers_field_other. discriminate. }
    apply (blames_names "contentType" _ Bc) in Hn. apply Hn. eauto.
  - right. right. right. left. apply (blames_names "contentType" _ Bc).
    intros (s & Hs). apply H. exists s.
    apply (contentType_Ok ["contentType"]). exact Hs.
  - apply (string_fails ["body"]). apply (blames_names "body" _ Bb).
    destruct H as [H | [H | [H | [H | [H | H]]]]]; try exact H; exfalso.
    + revert H. apply (blames_other _ _ _ Bu). discriminate.
    + revert H. apply (blames_other _ _ _ Bm). discriminate.
    + revert H. apply (blames_other _ _ _ Bs). discriminate.
    + revert H. apply (blames_other _ _ _ Bc). discriminate.
    + revert H. apply headers_field_other. discriminate.
  - right. right. right. right. left. apply (blames_names "body" _ Bb).
    apply (string_fails ["body"]). exact H.
  - apply headers_field_names.
    destruct H as [H | [H | [H | [H | [H | H]]]]]; try exact H; exfalso.
    + revert H. apply (blames_other _ _ _ Bu). discriminate.
    + revert H. apply (blames_other _ _ _ Bm). discriminate.
    + revert H. apply (blames_other _ _ _ Bs). discriminate.
    + revert H. apply (blames_other _ _ _ Bc). discriminate.
    + revert H. apply (blames_other _ _ _ Bb). discriminate.
  - apply headers_field_names in H. tauto.
Qed.

End SchemaFacts.

(* ================================================================= *)
(** ** More on the three schemas *)

Module SchemaEdges.
Import Js Playwright Fields ZodFacts HandlerFacts SchemaFacts.

(** X3: the schema of mock-api reads its six keys and nothing else: two
    arguments objects that agree on url, method, status, contentType, body
    and headers parse alike, so properties under any other key are
    ignored. *)
Theorem mockApi_ignores_other_keys (o1 o2 : list (string * Value)) :
  (forall k, In k mockApi_keys -> get o1 k = get o2 k) ->
  mockApi.inputSchema [] (VObj o1) = mockApi.inputSchema [] (VObj o2).
Proof.
  intros Hagree. unfold mockApi.inputSchema, Zod.field.
  rewrite (Hagree "url"), (Hagree "method"), (Hagree "status"),
    (Hagree "contentType"), (Hagree "body"), (Hagree "headers");
    try reflexivity; unfold mockApi_keys; simpl; tauto.
Qed.

Lemma mockApi_ignores_other_keys_witness :
  mockApi.inputSchema []
    (VObj [("url", VStr "/api/x"); ("verbose", VBool true);
           ("body", VStr "{}")])
  = mockApi.inputSchema [] Examples.x_args.
Proof.
  apply (mockApi_ignores_other_keys
           [("url", VStr "/api/x"); ("verbose", VBool true);
            ("body", VStr "{}")]
           [("url", VStr "/api/x"); ("body", VStr "{}")]).
  intros k Hin. unfold mockApi_keys in Hin. simpl in Hin.
  destruct Hin as [<- | [<- | [<- | [<- | [<- | [<- | []]]]]]]; reflexivity.
Defined.

(** X4: the schema of clear-mock-api accepts an arguments object exactly
    when its url is a string, and the parsed url is that string; the schema
    of set-headers accepts it exactly when its headers are an object all of
    whose values are strings, and the parsed headers are the entries of that
    object in their order, one under the key __proto__ left out. *)
Theorem clear_and_setHeaders_accept_exactly (o : list (string * Value)) :
  (forall params : clearMockApi.Params,
      clearMockApi.inputSchema [] (VObj o) = Zod.Ok params
      <-> get o "url" = VStr (clearMockApi.url params))
  /\ (forall params : setHeaders.Params,
         setHeaders.inputSchema [] (VObj o) = Zod.Ok params
         <-> record_of (get o "headers") (setHeaders.headers params)).
Proof.
  split; intros params.
  - unfold clearMockApi.inputSchema, Zod.field. split.
    + intros H. apply ap_Ok_inv in H. destruct H as (g & u & H & Hu & ->).
      injection H as <-. apply string_Ok in Hu. exact Hu.
    + intros Hu. apply (string_Ok ([] ++ ["url"])) in Hu. rewrite Hu.
      destruct params; reflexivity.
  - unfold setHeaders.inputSchema, Zod.field. split.
    + intros H. apply ap_Ok_inv in H. destruct H as (g & r & H & Hr & ->).
      injection H as <-. apply record_string_Ok in Hr. exact Hr.
    + intros Hr. apply (record_string_Ok ([] ++ ["headers"])) in Hr.
      rewrite Hr. destruct params; reflexivity.
Qed.

(** The headers object with the keys __proto__ and a parses to the one entry
    under a. *)
Example setHeaders_leaves_out_proto_key :
  setHeaders.inputSchema []
    (VObj [("headers", VObj [("__proto__", VStr "x"); ("a", VStr "b")])])
  = Zod.Ok {| setHeaders.headers := [("a", "b")] |}.
Proof. reflexivity. Qed.

Lemma record_entries_blames_key (p : list string)
      (props : list (string * Value)) (k : string) (v : Value) :
  In (k, v) props -> is_string v = false ->
  In (Zod.mkIssue Zod.invalid_type (p ++ [k])%list)
     (issues_of (Zod.record_entries p props)).
Proof.
  intros Hin Hv. induction props as [| [k' v'] rest IH]; [destruct Hin |].
  rewrite record_entries_cons, !issues_of_ap. simpl issues_of at 1.
  apply in_or_app. destruct Hin as [Heq | Hin].
  - injection Heq as -> ->. left. simpl.
    destruct v; try discriminate; left; reflexivity.
  - right. apply IH. exact Hin.
Qed.

(** X5: a header whose value is not a string makes set-headers fail with an
    issue at that header, path headers then its key; the handler is not run
    and the page is as it was. *)
Theorem setHeaders_rejects_non_string_header
        (o props : list (string * Value)) (k : string) (v : Value)
        (pg : Page) :
  get o "headers" = VObj props ->
  In (k, v) props ->
  is_string v = false ->
  exists issues,
    Tool.callTool setHeaders.inputSchema setHeaders.handle (VObj o) pg
    = (inl issues, pg)
    /\ In (Zod.mkIssue Zod.invalid_type ["headers"; k]) issues.
Proof.
  intros Hget Hin Hv.
  pose proof (record_entries_blames_key ["headers"] props k v Hin Hv) as Hb.
  assert (E : setHeaders.inputSchema [] (VObj o)
              = Zod.ap (Zod.Ok setHeaders.mkParams)
                       (Zod.record_entries ["headers"] props)).
  { unfold setHeaders.inputSchema, Zod.field. rewrite Hget. reflexivity. }
  destruct (Zod.record_entries ["headers"] props) as [r | is_] eqn:Er;
    [destruct Hb |].
  exists is_. split; [| exact Hb].
  apply Validation.callTool_invalid. rewrite E. reflexivity.
Qed.

Lemma setHeaders_rejects_non_string_header_witness :
  exists issues,
    Tool.callTool setHeaders.inputSchema setHeaders.handle
      (VObj [("headers", VObj [("Accept", VStr "text/html");
                               ("X-Retry", VNum 3)])]) new_page
    = (inl issues, new_page)
    /\ In (Zod.mkIssue Zod.invalid_type ["headers"; "X-Retry"]) issues.
Proof.
  apply (setHeaders_rejects_non_string_header
           [("headers", VObj [("Accept", VStr "text/html");
                              ("X-Retry", VNum 3)])]
           [("Accept", VStr "text/html"); ("X-Retry", VNum 3)]
           "X-Retry" (VNum 3) new_page).
  - reflexivity.
  - right. left. reflexivity.
  - reflexivity.
Defined.

(** X6: arguments that are not an object (undefined, null, a boolean, a
    number, a string, an array) are rejected by each of the three schemas
    with one invalid_type issue at the root. *)
Theorem non_object_arguments_rejected (v : Value) :
  is_object v = false ->
  mockApi.inputSchema [] v = Zod.Invalid [Zod.mkIssue Zod.invalid_type []]
  /\ clearMockApi.inputSchema [] v
     = Zod.Invalid [Zod.mkIssue Zod.invalid_type []]
  /\ setHeaders.inputSchema [] v
     = Zod.Invalid [Zod.mkIssue Zod.invalid_type []].
Proof.
  intros Hv. destruct v; try discriminate; repeat split; reflexivity.
Qed.

Lemma non_object_arguments_rejected_witness :
  is_object (VArr [VStr "/api/x"]) = false /\
  mockApi.inputSchema [] (VArr [VStr "/api/x"])
  = Zod.Invalid [Zod.mkIssue Zod.invalid_type []].
Proof.
  split; [reflexivity |].
  exact (proj1 (non_object_arguments_rejected
                  (VArr [VStr "/api/x"]) eq_refl)).
Defined.

End SchemaEdges.

(* ================================================================= *)
(** ** Sequences of invocations *)

Module SessionFacts.
Import Js Playwright Fields Session ZodFacts HandlerFacts SchemaFacts.

Lemma callTool_page {P : Type} (schema : Zod.Schema P)
      (handle : P -> M Tool.Result) (args : Value) (pg : Page) :
  snd (Tool.callTool schema handle args pg)
  = match schema [] args with
    | Zod.Ok params => snd (handle params pg)
    | Zod.Invalid _ => pg
    end.
Proof.
  unfold Tool.callTool, bind, ret.
  destruct (schema [] args) as [params | is_]; [| reflexivity].
  destruct (handle params pg). reflexivity.
Qed.

Lemma clearMockApi_page (params : clearMockApi.Params) (pg : Page) :
  snd (clearMockApi.handle params pg)
  = if truthy (clearMockApi.url params)
    then {| routes := delete (clearMockApi.url params) (routes pg);
            extraHTTPHeaders := extraHTTPHeaders pg;
            calls := (calls pg ++ [call_unroute (clearMockApi.url params)])%list |}
    else pg.
Proof.
  destruct params as [u]. simpl. destruct (truthy u) eqn:Ht.
  - rewrite (clearMockApi_handle_truthy u pg Ht). reflexivity.
  - rewrite (clearMockApi_handle_falsy u pg Ht). reflexivity.
Qed.

(** Where a registration found after one invocation comes from. *)
Lemma invoke_provenance (i : Invocation) (pg : Page) (P : string)
      (h : Handler) :
  routes (snd (invoke i pg)) !! P = Some h ->
  routes pg !! P = Some h
  \/ exists args params,
      i = browser_mock_api args
      /\ mockApi.inputSchema [] args = Zod.Ok params
      /\ mockApi.url params = P
      /\ h = mockApi.interceptor params.
Proof.
  destruct i as [args | args | args]; simpl; rewrite callTool_page.
  - destruct (mockApi.inputSchema [] args) as [params | is_] eqn:E;
      [| intros H; left; exact H].
    rewrite mockApi_handle_eq. simpl. intros H.
    apply lookup_insert_Some in H. destruct H as [[Hu Hh] | [_ H]].
    + right. exists args, params. repeat split; congruence.
    + left. exact H.
  - destruct (clearMockApi.inputSchema [] args) as [params | is_];
      [| intros H; left; exact H].
    rewrite clearMockApi_page. destruct (truthy _); simpl; intros H.
    + apply lookup_delete_Some in H. left. apply H.
    + left. exact H.
  - destruct (setHeaders.inputSchema [] args) as [params | is_];
      intros H; left; exact H.
Qed.

Lemma run_provenance (is_ : list Invocation) (pg : Page) (P : string)
      (h : Handler) :
  routes (run is_ pg) !! P = Some h ->
  routes pg !! P = Some h
  \/ exists args params,
      In (browser_mock_api args) is_
      /\ mockApi.inputSchema [] args = Zod.Ok params
      /\ mockApi.url params = P
      /\ h = mockApi.interceptor params.
Proof.
  revert pg. induction is_ as [| i rest IH]; intros pg; simpl.
  - intros H. left. exact H.
  - intros H. apply IH in H.
    destruct H as [H | (args & params & Hin & Hp & Hu & Hh)].
    + apply invoke_provenance in H.
      destruct H as [H | (args & params & -> & Hp & Hu & Hh)];
        [left; exact H |].
      right. exists args, params. repeat split; try assumption.
      left. reflexivity.
    + right. exists args, params. repeat split; try assumption.
      right. exact Hin.
Qed.

Lemma interceptor_fulfills_within_schema (args : Value)
      (params : mockApi.Params) :
  mockApi.inputSchema [] args = Zod.Ok params ->
  fulfills_within_schema (mockApi.interceptor params).
Proof.
  intros Hp r o. unfold mockApi.interceptor.
  destruct (Validation.mockApi_inputSchema_sound args params Hp)
    as (ob & _ & _ & Hst & Hm).
  destruct (mockApi.method params) as [m |] eqn:Em; simpl;
    [| discriminate].
  destruct (String.eqb _ m) eqn:Eq; [| discriminate].
  intros H. injection H as <-. simpl. split; [exact Hst |].
  apply String.eqb_eq in Eq. rewrite Eq. apply Hm.
Qed.

(** X7: on a page that starts with no registration, a pattern is registered
    after a sequence of invocations only by an accepted mock-api invocation
    of the sequence: the interceptor found under the pattern is the one of
    that invocation's parsed parameters, whose url is the pattern.
    clear-mock-api and set-headers register nothing. *)
Theorem registrations_come_from_mock_api
        (is_ : list Invocation) (P : string) (h : Handler) :
  routes (run is_ new_page) !! P = Some h ->
  exists args params,
    In (browser_mock_api args) is_
    /\ mockApi.inputSchema [] args = Zod.Ok params
    /\ mockApi.url params = P
    /\ h = mockApi.interceptor params.
Proof.
  intros H. apply run_provenance in H. destruct H as [H | H]; [| exact H].
  simpl in H. rewrite lookup_empty in H. discriminate.
Qed.

(** X8: whatever sequence of invocations a fresh page has seen, a request it
    intercepts is fulfilled only if the request's method is one of the seven
    verbs, and only with a status within 100..599. *)
Theorem session_fulfills_within_schema
        (is_ : list Invocation) (P : string) (r : Route)
        (o : FulfillOptions) :
  intercepted (run is_ new_page) P r = Some (fulfill o) ->
  (100 <= status o <= 599)%Z
  /\ In (Playwright.method (request r)) mockApi.verbs.
Proof.
  unfold intercepted.
  destruct (routes (run is_ new_page) !! P) as [h |] eqn:E; [| discriminate].
  intros H. injection H as H.
  apply run_provenance in E. destruct E as [E | E].
  - simpl in E. rewrite lookup_empty in E. discriminate.
  - destruct E as (args & params & _ & Hp & _ & ->).
    exact (interceptor_fulfills_within_schema args params Hp r o H).
Qed.

Lemma registrations_come_from_mock_api_witness :
  routes (run [browser_mock_api Examples.users_args] new_page) !! "/api/users"
  = Some (mockApi.interceptor Examples.users_params)
  /\ exists args params,
      In (browser_mock_api args) [browser_mock_api Examples.users_args]
      /\ mockApi.inputSchema [] args = Zod.Ok params
      /\ mockApi.url params = "/api/users"
      /\ mockApi.interceptor Examples.users_params
         = mockApi.interceptor params.
Proof.
  assert (H : routes (run [browser_mock_api Examples.users_args] new_page)
                !! "/api/users"
              = Some (mockApi.interceptor Examples.users_params))
    by (vm_compute; reflexivity).
  split; [exact H |].
  exact (registrations_come_from_mock_api
           [browser_mock_api Examples.users_args] "/api/users"
           (mockApi.interceptor Examples.users_params) H).
Defined.

Lemma session_fulfills_within_schema_witness :
  intercepted (run [browser_mock_api Examples.users_args] new_page)
              "/api/users" Examples.get_users
  = Some (fulfill {| status := 200; contentType := "application/json";
                     body := Examples.ok_body; headers := None |})
  /\ (100 <= 200 <= 599)%Z /\ In "GET" mockApi.verbs.
Proof.
  assert (H : intercepted
                (run [browser_mock_api Examples.users_args] new_page)
                "/api/users" Examples.get_users
              = Some (fulfill {| status := 200;
                                 contentType := "application/json";
                                 body := Examples.ok_body;
                                 headers := None |}))
    by (vm_compute; reflexivity).
  split; [exact H |].
  exact (session_fulfills_within_schema
           [browser_mock_api Examples.users_args] "/api/users"
           Examples.get_users
           {| status := 200; contentType := "application/json";
              body := Examples.ok_body; headers := None |} H).
Defined.

Lemma invoke_calls (i : Invocation) (pg : Page) :
  calls (snd (invoke i pg)) = calls pg
  \/ exists c, calls (snd (invoke i pg)) = (calls pg ++ [c])%list
               /\ call_of_tool i c = true.
Proof.
  destruct i as [args | args | args]; simpl; rewrite callTool_page.
  - destruct (mockApi.inputSchema [] args) as [params | is_];
      [| left; reflexivity].
    right. rewrite mockApi_handle_eq. simpl. eauto.
  - destruct (clearMockApi.inputSchema [] args) as [params | is_];
      [| left; reflexivity].
    rewrite clearMockApi_page. destruct (truthy _); simpl;
      [right; eauto | left; reflexivity].
  - destruct (setHeaders.inputSchema [] args) as [params | is_];
      [| left; reflexivity].
    right. simpl. eauto.
Qed.

(** X9: an invocation makes at most one page call, of the kind of its tool
    (route for mock-api, unroute for clear-mock-api, setExtraHTTPHeaders for
    set-headers), appended to the calls made before; over a sequence of
    invocations the earlier calls stay and at most one call per invocation
    is added. *)
Theorem at_most_one_page_call_per_invocation :
  (forall (i : Invocation) (pg : Page),
      calls (snd (invoke i pg)) = calls pg
      \/ exists c, calls (snd (invoke i pg)) = (calls pg ++ [c])%list
                   /\ call_of_tool i c = true)
  /\ (forall (is_ : list Invocation) (pg : Page),
         exists cs, calls (run is_ pg) = (calls pg ++ cs)%list
                    /\ (List.length cs <= List.length is_)%nat).
Proof.
  split; [exact invoke_calls |].
  induction is_ as [| i rest IH]; intros pg; simpl.
  - exists []. split; [symmetry; apply app_nil_r | reflexivity].
  - destruct (IH (snd (invoke i pg))) as (cs & Hcs & Hlen).
    destruct (invoke_calls i pg) as [E | (c & E & _)]; rewrite E in Hcs.
    + exists cs. split; [exact Hcs | lia].
    + exists (c :: cs). split; [| simpl; lia].
      rewrite Hcs, <- app_assoc. reflexivity.
Qed.

Lemma invoke_keeps_headers (i : Invocation) (pg : Page) :
  is_set_headers i = false ->
  extraHTTPHeaders (snd (invoke i pg)) = extraHTTPHeaders pg.
Proof.
  destruct i as [args | args | args]; simpl; try discriminate; intros _;
    rewrite callTool_page.
  - destruct (mockApi.inputSchema [] args); reflexivity.
  - destruct (clearMockApi.inputSchema [] args) as [params | is_];
      [| reflexivity].
    rewrite clearMockApi_page. destruct (truthy _); reflexivity.
Qed.

Lemma invoke_keeps_routes (i : Invocation) (pg : Page) :
  is_set_headers i = true ->
  routes (snd (invoke i pg)) = routes pg.
Proof.
  destruct i as [args | args | args]; simpl; try discriminate; intros _.
  rewrite callTool_page.
  destruct (setHeaders.inputSchema [] args); reflexivity.
Qed.

(** X10: mock-api and clear-mock-api never touch the page's extra headers:
    after any sequence of invocations none of which is set-headers, accepted
    or rejected, the extra headers are those of the page before. *)
Theorem mocks_never_touch_extra_headers
        (is_ : list Invocation) (pg : Page) :
  forallb (fun i => negb (is_set_headers i)) is_ = true ->
  extraHTTPHeaders (run is_ pg) = extraHTTPHeaders pg.
Proof.
  revert pg. induction is_ as [| i rest IH]; intros pg; simpl;
    [reflexivity |].
  intros H. apply andb_prop in H. destruct H as [Hi Hrest].
  rewrite (IH _ Hrest). apply invoke_keeps_headers.
  apply negb_true_iff. exact Hi.
Qed.

Lemma mocks_never_touch_extra_headers_witness :
  extraHTTPHeaders
    (run [browser_mock_api Examples.users_args;
          browser_clear_mock_api (VObj [("url", VStr "/api/users")])]
         {| routes := ∅; extraHTTPHeaders := [("Accept", "text/html")];
            calls := [] |})
  = [("Accept", "text/html")].
Proof.
  exact (mocks_never_touch_extra_headers
           [browser_mock_api Examples.users_args;
            browser_clear_mock_api (VObj [("url", VStr "/api/users")])]
           {| routes := ∅; extraHTTPHeaders := [("Accept", "text/html")];
              calls := [] |} eq_refl).
Defined.

(** X11: set-headers never touches the routing table: after any sequence of
    set-headers invocations, accepted or rejected, the registrations are
    those of the page before. *)
Theorem setHeaders_never_touches_routes
        (is_ : list Invocation) (pg : Page) :
  forallb is_set_headers is_ = true ->
  routes (run is_ pg) = routes pg.
Proof.
  revert pg. induction is_ as [| i rest IH]; intros pg; simpl;
    [reflexivity |].
  intros H. apply andb_prop in H. destruct H as [Hi Hrest].
  rewrite (IH _ Hrest). apply invoke_keeps_routes. exact Hi.
Qed.

Lemma setHeaders_never_touches_routes_witness :
  routes (run [browser_set_headers (VObj [("headers", VObj [])]);
               browser_set_headers VNull]
              (snd (mockApi.handle Examples.users_params new_page)))
  = routes (snd (mockApi.handle Examples.users_params new_page)).
Proof.
  exact (setHeaders_never_touches_routes
           [browser_set_headers (VObj [("headers", VObj [])]);
            browser_set_headers VNull]
           (snd (mockApi.handle Examples.users_params new_page)) eq_refl).
Defined.

Lemma run_app (a b : list Invocation) (pg : Page) :
  run (a ++ b)%list pg = run b (run a pg).
Proof.
  revert pg. induction a as [| i a IH]; intros pg; [reflexivity |].
  simpl. apply IH.
Qed.

(** X15: whatever invocations came before, once a mock-api invocation is
    accepted the requests intercepted under its url are decided by its own
    rule: the latest registration for a pattern is the one in force. *)
Theorem latest_mock_decides
        (is_ : list Invocation) (args : Value) (params : mockApi.Params)
        (pg : Page) (r : Route) :
  mockApi.inputSchema [] args = Zod.Ok params ->
  intercepted (run (is_ ++ [browser_mock_api args])%list pg)
              (mockApi.url params) r
  = Some (mockApi.interceptor params r).
Proof.
  intros Hp. rewrite run_app. unfold run at 1, invoke.
  rewrite callTool_page, Hp. apply mockApi_intercepted.
Qed.

Lemma latest_mock_decides_witness :
  mockApi.inputSchema [] Examples.x_args = Zod.Ok Examples.x_params /\
  intercepted
    (run ([browser_mock_api Examples.users_args;
           browser_mock_api
             (VObj [("url", VStr "/api/x"); ("method", VStr "GET");
                    ("body", VStr "old")])]
          ++ [browser_mock_api Examples.x_args])%list new_page)
    "/api/x" Examples.get_users
  = Some continue.
Proof.
  split; [reflexivity |].
  exact (latest_mock_decides
           [browser_mock_api Examples.users_args;
            browser_mock_api
              (VObj [("url", VStr "/api/x"); ("method", VStr "GET");
                     ("body", VStr "old")])]
           Examples.x_args Examples.x_params new_page Examples.get_users
           eq_refl).
Defined.

(** X16: whatever invocations came before, a clear-mock-api invocation whose
    url is a non-empty string P leaves no registration for P, and keeps the
    registrations of every other pattern. *)
Theorem clear_last_unregisters
        (is_ : list Invocation) (o : list (string * Value)) (P : string)
        (pg : Page) :
  get o "url" = VStr P ->
  P <> EmptyString ->
  routes (run (is_ ++ [browser_clear_mock_api (VObj o)])%list pg) !! P = None
  /\ (forall Q : string,
        Q <> P ->
        routes (run (is_ ++ [browser_clear_mock_api (VObj o)])%list pg) !! Q
        = routes (run is_ pg) !! Q).
Proof.
  intros Hu Hne. rewrite run_app. unfold run at 1 3, invoke.
  rewrite callTool_page.
  assert (Hp : clearMockApi.inputSchema [] (VObj o)
               = Zod.Ok {| clearMockApi.url := P |}).
  { unfold clearMockApi.inputSchema, Zod.field. rewrite Hu. reflexivity. }
  rewrite Hp, clearMockApi_page. simpl clearMockApi.url.
  rewrite (truthy_nonempty P Hne). simpl. split.
  - apply lookup_delete_eq.
  - intros Q HQ. apply lookup_delete_ne. congruence.
Qed.

Lemma clear_last_unregisters_witness :
  routes (run ([browser_mock_api Examples.users_args;
                browser_set_headers (VObj [("headers", VObj [])])]
               ++ [browser_clear_mock_api
                     (VObj [("url", VStr "/api/users")])])%list new_page)
    !! "/api/users" = None.
Proof.
  refine (proj1 (clear_last_unregisters
                   [browser_mock_api Examples.users_args;
                    browser_set_headers (VObj [("headers", VObj [])])]
                   [("url", VStr "/api/users")] "/api/users" new_page
                   eq_refl _)).
  discriminate.
Defined.

End SessionFacts.

(* ================================================================= *)
(** ** The transcripts *)

Module TranscriptFacts.
Import Js Playwright Fields JsonRead HandlerFacts.

Lemma append_assoc (a b c : string) : (a ++ b) ++ c = a ++ (b ++ c).
Proof.
  induction a as [| x a IH]; [reflexivity |].
  change (String x ((a ++ b) ++ c) = String x (a ++ (b ++ c))).
  f_equal. exact IH.
Qed.

Lemma read_quote_char (c : ascii) (t : string) :
  read_chars (quote_char c ++ t) = push c (read_chars t).
Proof.
  destruct c as [[] [] [] [] [] [] [] []]; reflexivity.
Qed.

Lemma read_quote_chars (s t : string) :
  read_chars (quote_chars s ++ String (ascii_of_nat 34) t) = Some (s, t).
Proof.
  induction s as [| c s IH]; [reflexivity |].
  simpl quote_chars. rewrite append_assoc, read_quote_char, IH. reflexivity.
Qed.

Lemma quote_chars_cancel (s1 s2 t1 t2 : string) :
  quote_chars s1 ++ String (ascii_of_nat 34) t1
  = quote_chars s2 ++ String (ascii_of_nat 34) t2 ->
  s1 = s2 /\ t1 = t2.
Proof.
  intros H. apply (f_equal read_chars) in H.
  rewrite !read_quote_chars in H. injection H as -> ->. split; reflexivity.
Qed.

Lemma append_cancel_l (a x y : string) : a ++ x = a ++ y -> x = y.
Proof.
  induction a as [| c a IH]; [intros H; exact H |].
  intros H. injection H as H. apply IH. exact H.
Qed.

Lemma JSON_stringify_body (o : StringRecord) (t : string) :
  JSON_stringify o ++ t = String "{" (body o t).
Proof.
  unfold JSON_stringify, body.
  change (String "{" ((join "," (map entry o) ++ "}") ++ t)
          = String "{" (join "," (map entry o) ++ String "}" t)).
  rewrite append_assoc. reflexivity.
Qed.

Lemma body_cons (kv : string * string) (r : StringRecord) (t : string) :
  body (kv :: r) t = entry kv ++ tail r t.
Proof.
  unfold body, tail. destruct r as [| kv' r']; [reflexivity |].
  change (join "," (map entry (kv :: kv' :: r')))
    with (entry kv ++ "," ++ join "," (map entry (kv' :: r'))).
  rewrite !append_assoc. reflexivity.
Qed.

Lemma entry_normal (kv : string * string) (t : string) :
  entry kv ++ t
  = String (ascii_of_nat 34)
      (quote_chars (fst kv) ++
       String (ascii_of_nat 34)
         (String ":"
            (String (ascii_of_nat 34)
               (quote_chars (snd kv) ++ String (ascii_of_nat 34) t)))).
Proof.
  unfold entry, QuoteJSONString, chr. rewrite !append_assoc. simpl.
  rewrite ?append_assoc. reflexivity.
Qed.

Lemma entry_cancel (kv1 kv2 : string * string) (t1 t2 : string) :
  entry kv1 ++ t1 = entry kv2 ++ t2 -> kv1 = kv2 /\ t1 = t2.
Proof.
  rewrite !entry_normal. intros H. injection H as H.
  apply quote_chars_cancel in H. destruct H as [Hk H].
  injection H as H. apply quote_chars_cancel in H. destruct H as [Hv Ht].
  destruct kv1, kv2. simpl in *. subst. split; reflexivity.
Qed.

Lemma body_injective (o1 o2 : StringRecord) (t1 t2 : string) :
  body o1 t1 = body o2 t2 -> o1 = o2 /\ t1 = t2.
Proof.
  revert o2. induction o1 as [| kv1 r1 IH]; intros o2.
  - destruct o2 as [| kv2 r2].
    + unfold body. simpl. intros H. injection H as ->. split; reflexivity.
    + rewrite body_cons, entry_normal. unfold body. simpl. discriminate.
  - destruct o2 as [| kv2 r2].
    + rewrite body_cons, entry_normal. unfold body. simpl. discriminate.
    + rewrite !body_cons. intros H. apply entry_cancel in H.
      destruct H as [-> Ht].
      destruct r1 as [| a1 r1'], r2 as [| a2 r2']; simpl in Ht.
      * injection Ht as ->. split; reflexivity.
      * discriminate.
      * discriminate.
      * injection Ht as Ht. apply IH in Ht. destruct Ht as [-> ->].
        split; reflexivity.
Qed.

(** X12: the transcript of set-headers determines the headers that were set:
    two calls with the same transcript set the same entries in the same
    order.  The escaping of [JSON.stringify] loses nothing. *)
Theorem setHeaders_transcript_determines_headers
        (p1 p2 : setHeaders.Params) :
  setHeaders.transcript p1 = setHeaders.transcript p2 -> p1 = p2.
Proof.
  unfold setHeaders.transcript. intros H.
  apply (f_equal (fun l => nth 1 l EmptyString)) in H. cbn [nth] in H.
  apply append_cancel_l in H. rewrite !JSON_stringify_body in H.
  injection H as H. apply body_injective in H. destruct H as [H _].
  destruct p1, p2. simpl in H. subst. reflexivity.
Qed.

Lemma setHeaders_transcript_determines_headers_witness :
  {| setHeaders.headers := [("X-Trace", "a,b"); ("Accept", "*/*")] |}
  = {| setHeaders.headers := [("X-Trace", "a,b"); ("Accept", "*/*")] |}.
Proof.
  exact (setHeaders_transcript_determines_headers
           {| setHeaders.headers := [("X-Trace", "a,b"); ("Accept", "*/*")] |}
           {| setHeaders.headers := [("X-Trace", "a,b"); ("Accept", "*/*")] |}
           eq_refl).
Defined.

Lemma all_chars_app (P : ascii -> bool) (a b : string) :
  all_chars P (a ++ b) = all_chars P a && all_chars P b.
Proof.
  induction a as [| c a IH]; [reflexivity |].
  change (P c && all_chars P (a ++ b)
          = P c && all_chars P a && all_chars P b).
  rewrite IH. apply andb_assoc.
Qed.

Lemma quote_char_clean (c : ascii) :
  all_chars not_control (quote_char c) = true.
Proof. destruct c as [[] [] [] [] [] [] [] []]; reflexivity. Qed.

Lemma quote_chars_clean (s : string) :
  all_chars not_control (quote_chars s) = true.
Proof.
  induction s as [| c s IH]; [reflexivity |].
  simpl quote_chars. rewrite all_chars_app, quote_char_clean, IH.
  reflexivity.
Qed.

Lemma entry_clean (kv : string * string) :
  all_chars not_control (entry kv) = true.
Proof.
  unfold entry, QuoteJSONString.
  rewrite !all_chars_app, !quote_chars_clean. reflexivity.
Qed.

Lemma join_clean (l : list string) :
  forallb (all_chars not_control) l = true ->
  all_chars not_control (join "," l) = true.
Proof.
  induction l as [| a l IH]; [reflexivity |].
  intros H. apply andb_prop in H. destruct H as [Ha Hl].
  destruct l as [| b l']; [exact Ha |].
  change (join "," (a :: b :: l')) with (a ++ "," ++ join "," (b :: l')).
  rewrite !all_chars_app, Ha, (IH Hl). reflexivity.
Qed.

Lemma JSON_stringify_clean (o : StringRecord) :
  all_chars not_control (JSON_stringify o) = true.
Proof.
  unfold JSON_stringify. rewrite !all_chars_app, join_clean; [reflexivity |].
  induction o as [| kv o IH]; [reflexivity |].
  simpl. rewrite IH, andb_true_r. apply entry_clean.
Qed.

(** X13: no line of the set-headers transcript holds a control character,
    whatever the header names and values: line feeds, tabs and the like are
    written as escapes, so each line of the transcript is one line of
    text. *)
Theorem setHeaders_transcript_has_no_control_characters
        (params : setHeaders.Params) :
  forallb (all_chars not_control) (setHeaders.transcript params) = true.
Proof.
  unfold setHeaders.transcript. cbn [forallb].
  rewrite !all_chars_app, JSON_stringify_clean. reflexivity.
Qed.

(** X14: the transcript of mock-api does not tell absent headers from an
    empty headers object: it prints the same fifteen lines for both, while
    the registered interceptors fulfill a matching request with different
    options, headers undefined in one and the empty object in the other. *)
Theorem mockApi_transcript_hides_absent_headers
        (u : string) (m : option string) (st : Z) (ct b : string) :
  mockApi.transcript (mockApi.mkParams u m st ct b None)
  = mockApi.transcript (mockApi.mkParams u m st ct b (Some []))
  /\ (forall r : Route,
        strict_eq (Playwright.method (request r)) m = true ->
        mockApi.interceptor (mockApi.mkParams u m st ct b None) r
        = fulfill (mkFulfill st ct b None)
        /\ mockApi.interceptor (mockApi.mkParams u m st ct b (Some [])) r
           = fulfill (mkFulfill st ct b (Some []))).
Proof.
  split; [reflexivity |].
  intros r Hm. unfold mockApi.interceptor. simpl. rewrite Hm.
  split; reflexivity.
Qed.

End TranscriptFacts.
